(** * StudyMate front end: filters, favourites, preference sync, resume upload

    A shallow embedding of the event handlers of three React components

      - [DSAFilters]   (the check-box handlers of the filter panel),
      - [DSASheet]     (favourites toggle and the debounced save of filters),
      - [ResumeUpload] (the [onDrop] validation of a dropped file),

    and of the filter derivation the sheet obtains from its [useDSAFilters]
    hook.  Handlers that perform effects (collaborator calls, state setters,
    toasts, timers) are written in a small state-and-exception monad over
    the component's world, so that the order of effects is the order of the
    statements of the source. *)

From Stdlib Require Import List String Ascii Bool ZArith Lia.
Import ListNotations.
Open Scope string_scope.
Open Scope Z_scope.

(** ** Effects: state plus exceptions *)

Module Eff.
Section Eff.
Context {W X : Type}.

(** What an awaited computation does: it returns, or it throws. *)
Inductive Outcome (A : Type) : Type :=
| Returned (a : A)
| Thrown (x : X).

Definition M (A : Type) : Type := W -> Outcome A * W.

Definition ret {A} (a : A) : M A := fun w => (Returned A a, w).

Definition bind {A B} (m : M A) (k : A -> M B) : M B :=
  fun w =>
    match m w with
    | (Returned _ a, w') => k a w'
    | (Thrown _ x, w') => (Thrown B x, w')
    end.

Definition throw {A} (x : X) : M A := fun w => (Thrown A x, w).

(** [try { body } catch (error) { handler error }] *)
Definition try_catch {A} (body : M A) (handler : X -> M A) : M A :=
  fun w =>
    match body w with
    | (Returned _ a, w') => (Returned A a, w')
    | (Thrown _ x, w') => handler x w'
    end.

Definition get : M W := fun w => (Returned W w, w).
Definition modify (f : W -> W) : M unit := fun w => (Returned unit tt, f w).

(** The world a computation leaves behind. *)
Definition exec {A} (m : M A) (w : W) : W := snd (m w).
End Eff.
Arguments Outcome : clear implicits.
Arguments M : clear implicits.
Arguments Returned {X A} a.
Arguments Thrown {X A} x.
End Eff.

Declare Scope eff_scope.
Delimit Scope eff_scope with eff.
Notation "x <- m ;; k" := (Eff.bind m (fun x => k))
  (at level 61, m at next level, right associativity) : eff_scope.
Notation "m ;; k" := (Eff.bind m (fun _ => k))
  (at level 61, right associativity) : eff_scope.

(** ** JavaScript arrays of strings *)

Module Js.
(** [xs.includes(x)] *)
Definition includes (xs : list string) (x : string) : bool :=
  existsb (String.eqb x) xs.

(** [xs.filter(d => d !== x)] *)
Definition without (xs : list string) (x : string) : list string :=
  filter (fun d => negb (String.eqb d x)) xs.

(** [[...xs, x]] *)
Definition appended (xs : list string) (x : string) : list string :=
  xs ++ [x].

(** [xs.length === 0] *)
Definition isEmpty {A} (xs : list A) : bool :=
  match xs with [] => true | _ :: _ => false end.
End Js.

(** ** The signed-in user *)

Record User : Type := mkUser { user_id : string }.

(** [user?.id] as a condition: absent for no user and for the empty
    string, which JavaScript takes as false. *)
Definition userId (user : option User) : option string :=
  match user with
  | None => None
  | Some u => if String.eqb (user_id u) "" then None else Some (user_id u)
  end.

(** ** DSAFilters: the filter panel *)

Module DSAFilters.

Record Filters : Type := mkFilters {
  difficulty : list string;
  category : list string;
  companies : list string
}.

(** [{ ...filters, difficulty: v }] and its two siblings. *)
Definition with_difficulty (filters : Filters) (v : list string) : Filters :=
  {| difficulty := v;
     category := category filters;
     companies := companies filters |}.
Definition with_category (filters : Filters) (v : list string) : Filters :=
  {| difficulty := difficulty filters;
     category := v;
     companies := companies filters |}.
Definition with_companies (filters : Filters) (v : list string) : Filters :=
  {| difficulty := difficulty filters;
     category := category filters;
     companies := v |}.

Definition difficulties : list string := ["Easy"; "Medium"; "Hard"].
Definition categories : list string := ["inside"; "outside"].

(** Each handler returns the object it hands to [onFiltersChange]. *)
Definition handleDifficultyChange
    (filters : Filters) (d : string) (checked : bool) : Filters :=
  let newDifficulties :=
    if checked then Js.appended (difficulty filters) d
    else Js.without (difficulty filters) d in
  with_difficulty filters newDifficulties.

Definition handleCategoryChange
    (filters : Filters) (c : string) (checked : bool) : Filters :=
  let newCategories :=
    if checked then Js.appended (category filters) c
    else Js.without (category filters) c in
  with_category filters newCategories.

Definition handleCompanyChange
    (filters : Filters) (company : string) (checked : bool) : Filters :=
  let newCompanies :=
    if checked then Js.appended (companies filters) company
    else Js.without (companies filters) company in
  with_companies filters newCompanies.

Definition clearAllFilters : Filters :=
  {| difficulty := []; category := []; companies := [] |}.

Definition hasActiveFilters (filters : Filters) : bool :=
  negb (Js.isEmpty (difficulty filters))
  || negb (Js.isEmpty (category filters))
  || negb (Js.isEmpty (companies filters)).

End DSAFilters.
Export DSAFilters.

(** ** DSASheet: favourites and preference sync *)

Module DSASheet.

(** Calls to the [dsaService] collaborator made by the sheet. *)
Inductive ServiceCall : Type :=
| RemoveFromFavorites (uid itemId : string)
| AddToFavorites (uid itemId : string)
| SaveFilters (uid : string) (filters : Filters).

Inductive ToastKind : Type := ToastError | ToastSuccess.

Inductive Event : Type :=
| ECall (c : ServiceCall)
| ESetFavorites (next : list string)
| EToast (kind : ToastKind) (message : string)
| EConsoleError (message : string).

(** What a timer runs when it fires: the [saveFilters] closure of the
    effect, with the [user] and the [filters] of the render it was
    created in. *)
Inductive Callback : Type :=
| SaveFiltersCb (user : option User) (filters : Filters).

Record Timer : Type := mkTimer {
  timer_id : nat;
  deadline : Z;
  callback : Callback
}.

(** The component state, the browser's timers and clock (milliseconds),
    the collaborator ([service n c] tells whether the call [c], made as
    the [n]-th call, resolves) and the log of what was done, oldest
    first. *)
Record World : Type := mkWorld {
  favorites : list string;
  effectTimer : option nat;
  timers : list Timer;
  nextTimerId : nat;
  clock : Z;
  service : nat -> ServiceCall -> bool;
  ncalls : nat;
  log : list Event
}.

Definition M := Eff.M World unit.

Definition emit (e : Event) : M unit :=
  Eff.modify (fun w =>
    mkWorld (favorites w) (effectTimer w) (timers w) (nextTimerId w)
            (clock w) (service w) (ncalls w) (log w ++ [e])).

(** [await dsaService.<call>]: the call is issued, then it resolves or
    rejects. *)
Definition await_call (c : ServiceCall) : M unit :=
  fun w =>
    let w' := mkWorld (favorites w) (effectTimer w) (timers w)
                      (nextTimerId w) (clock w) (service w)
                      (S (ncalls w)) (log w ++ [ECall c]) in
    if service w (ncalls w) c then (Eff.Returned tt, w')
    else (Eff.Thrown tt, w').

(** [setFavorites(prev => f prev)] *)
Definition setFavorites (f : list string -> list string) : M unit :=
  Eff.modify (fun w =>
    mkWorld (f (favorites w)) (effectTimer w) (timers w) (nextTimerId w)
            (clock w) (service w) (ncalls w)
            (log w ++ [ESetFavorites (f (favorites w))])).

Definition toast_error (msg : string) : M unit := emit (EToast ToastError msg).
Definition toast_success (msg : string) : M unit :=
  emit (EToast ToastSuccess msg).
Definition console_error (msg : string) : M unit := emit (EConsoleError msg).

(** *** Favourites toggle

    [favorites] is the array the handler closed over when the component
    was rendered; the setter works on the state of the moment.  Here a
    handler runs from its first statement to its last without another
    event in between; [ToggleSteps] below has the same handler cut at its
    [await], for the runs in which a second click comes while the call of
    the first is pending. *)
Definition handleToggleFavorite
    (user : option User) (favorites : list string) (itemId : string)
  : M unit :=
  match userId user with
  | None => toast_error "Please sign in to add favorites"
  | Some uid =>
    Eff.try_catch
      (if Js.includes favorites itemId then
         (await_call (RemoveFromFavorites uid itemId) ;;
          setFavorites (fun prev => Js.without prev itemId) ;;
          toast_success "Removed from favorites")%eff
       else
         (await_call (AddToFavorites uid itemId) ;;
          setFavorites (fun prev => Js.appended prev itemId) ;;
          toast_success "Added to favorites")%eff)
      (fun _ => toast_error "Error updating favorites")
  end.

(** A click on the star of [itemId]: the handler of the current render,
    whose closure holds the current favourites. *)
Definition clickFavorite (user : option User) (itemId : string) : M unit :=
  (w <- Eff.get ;; handleToggleFavorite user (favorites w) itemId)%eff.

Definition toggle (user : option User) (itemId : string) (w : World)
  : World :=
  Eff.exec (clickFavorite user itemId) w.

(** *** Saving the filters

    The body of the effect on [[filters, user?.id]]:
    [saveFilters], [setTimeout(saveFilters, 1000)], and the cleanup
    [clearTimeout(timeoutId)]. *)
Definition saveFilters (user : option User) (filters : Filters) : M unit :=
  match userId user with
  | None => Eff.ret tt
  | Some uid =>
    Eff.try_catch
      (await_call (SaveFilters uid filters))
      (fun _ => console_error "Error saving filters:")
  end.

Definition runCallback (cb : Callback) : M unit :=
  match cb with
  | SaveFiltersCb user filters => saveFilters user filters
  end.

Definition setTimeout (cb : Callback) (delay : Z) : M nat :=
  fun w =>
    let tid := nextTimerId w in
    (Eff.Returned tid,
     mkWorld (favorites w) (effectTimer w)
             (timers w ++ [mkTimer tid (clock w + delay) cb])
             (S tid) (clock w) (service w) (ncalls w) (log w)).

Definition clearTimeout (tid : nat) : M unit :=
  Eff.modify (fun w =>
    mkWorld (favorites w) (effectTimer w)
            (filter (fun tm => negb (Nat.eqb (timer_id tm) tid)) (timers w))
            (nextTimerId w) (clock w) (service w) (ncalls w) (log w)).

Definition setEffectTimer (t : option nat) : M unit :=
  Eff.modify (fun w =>
    mkWorld (favorites w) t (timers w) (nextTimerId w)
            (clock w) (service w) (ncalls w) (log w)).

Definition debounceDelay : Z := 1000.

Definition filtersEffect (user : option User) (filters : Filters) : M unit :=
  (timeoutId <- setTimeout (SaveFiltersCb user filters) debounceDelay ;;
   setEffectTimer (Some timeoutId))%eff.

Definition filtersEffectCleanup : M unit :=
  (w <- Eff.get ;;
   match effectTimer w with
   | Some timeoutId => clearTimeout timeoutId ;; setEffectTimer None
   | None => Eff.ret tt
   end)%eff.

(** A render in which [filters] changed: React runs the cleanup of the
    previous effect and then the effect again. *)
Definition commitFilters (user : option User) (filters : Filters) : M unit :=
  (filtersEffectCleanup ;; filtersEffect user filters)%eff.

(** *** The event loop

    Time passes up to [t]: the timers that are due fire, oldest first
    (all timers of the sheet have the same delay, so the order they
    were set in is the order of their deadlines). *)
Definition isPending (tid : nat) (w : World) : bool :=
  existsb (fun tm => Nat.eqb (timer_id tm) tid) (timers w).

(** The timer leaves the table, the clock reaches its deadline, its
    callback runs. *)
Definition fireTimer (tm : Timer) (w : World) : World :=
  Eff.exec (runCallback (callback tm))
    (mkWorld (favorites w) (effectTimer w)
             (filter (fun x => negb (Nat.eqb (timer_id x) (timer_id tm)))
                     (timers w))
             (nextTimerId w) (Z.max (clock w) (deadline tm))
             (service w) (ncalls w) (log w)).

Fixpoint fireDue (t : Z) (due : list Timer) (w : World) : World :=
  match due with
  | [] => w
  | tm :: rest =>
    if (deadline tm <=? t) && isPending (timer_id tm) w
    then fireDue t rest (fireTimer tm w)
    else fireDue t rest w
  end.

Definition advanceTo (t : Z) (w : World) : World :=
  let w' := fireDue t (timers w) w in
  mkWorld (favorites w') (effectTimer w') (timers w') (nextTimerId w')
          (Z.max (clock w') t) (service w') (ncalls w') (log w').

(** The user changes the filters at time [t]. *)
Definition changeFilters
    (user : option User) (t : Z) (filters : Filters) (w : World) : World :=
  Eff.exec (commitFilters user filters) (advanceTo t w).

(** The component right after it was mounted at time [t0]: no
    favourites, the effect has run once with the initial filters. *)
Definition mounted
    (svc : nat -> ServiceCall -> bool) (user : option User)
    (t0 : Z) (filters : Filters) : World :=
  Eff.exec (filtersEffect user filters)
           (mkWorld [] None [] 0%nat t0 svc 0%nat []).

(** The [saveFilters] writes in a log, oldest first. *)
Fixpoint savedWrites (l : list Event) : list (string * Filters) :=
  match l with
  | [] => []
  | ECall (SaveFilters uid f) :: l' => (uid, f) :: savedWrites l'
  | _ :: l' => savedWrites l'
  end.

(** Does the log show a local mutation of the favourites that comes
    before a collaborator call (the optimistic order)? *)
Fixpoint hasCall (l : list Event) : bool :=
  match l with
  | [] => false
  | ECall _ :: _ => true
  | _ :: l' => hasCall l'
  end.

Fixpoint mutationBeforeCall (l : list Event) : bool :=
  match l with
  | [] => false
  | ESetFavorites _ :: l' => hasCall l'
  | ECall _ :: _ => false
  | _ :: l' => mutationBeforeCall l'
  end.

(** Every pending timer is the one of the current effect. *)
Definition onlyEffectTimer (w : World) : Prop :=
  forall tm, In tm (timers w) -> effectTimer w = Some (timer_id tm).

End DSASheet.

(** ** The filter derivation of the sheet *)

Module FilterDerivation.

(** A catalog entry (topic or company) as far as filtering reads it. *)
Record Entry : Type := mkEntry {
  entry_id : string;
  title : string;
  entry_difficulty : string;
  entry_category : string
}.

(** [s.toLowerCase()] on ASCII letters. *)
Definition lowerAscii (c : ascii) : ascii :=
  let n := nat_of_ascii c in
  if (65 <=? n)%nat && (n <=? 90)%nat then ascii_of_nat (n + 32) else c.

Fixpoint toLowerCase (s : string) : string :=
  match s with
  | EmptyString => EmptyString
  | String c s' => String (lowerAscii c) (toLowerCase s')
  end.

(** [hay.includes(needle)] on strings. *)
Fixpoint strIncludes (hay needle : string) : bool :=
  String.prefix needle hay
  || match hay with
     | EmptyString => false
     | String _ hay' => strIncludes hay' needle
     end.

(** Modelled from the spec: the predicate of the filter derivation, which
    the [useDSAFilters] hook computes and whose source is not at hand.
    An entry is kept when the difficulty set is empty or holds the
    entry's difficulty, the category set is empty or holds the entry's
    category, the companies set is empty or holds the entry's id, and,
    if the search string is not empty, the title contains it, letter
    case ignored. *)
Definition matchesFilters
    (filters : Filters) (searchQuery : string) (e : Entry) : bool :=
  (Js.isEmpty (difficulty filters)
   || Js.includes (difficulty filters) (entry_difficulty e))
  && (Js.isEmpty (category filters)
      || Js.includes (category filters) (entry_category e))
  && (Js.isEmpty (companies filters)
      || Js.includes (companies filters) (entry_id e))
  && (if String.eqb searchQuery "" then true
      else strIncludes (toLowerCase (title e)) (toLowerCase searchQuery)).

(** Modelled from the spec: the filter derivation of the
    [useDSAFilters] hook, the subset of the catalog that matches, in
    catalog order. *)
Definition deriveFiltered
    (filters : Filters) (searchQuery : string) (catalog : list Entry)
  : list Entry :=
  filter (matchesFilters filters searchQuery) catalog.

End FilterDerivation.

(** ** ResumeUpload: the drop handler *)

Module ResumeUpload.

Record File : Type := mkFile {
  file_name : string;
  file_type : string;
  file_size : Z
}.

Inductive Variant : Type := VariantDefault | VariantDestructive.

Inductive Event : Type :=
| EToast (title description : string) (variant : Variant)
| EUploadResume (file : File)
| ESetInterval (intervalId : nat) (ms : Z)
| EClearInterval (intervalId : nat)
| ESetTimeout (ms : Z)
| EConsoleError (message : string).

(** What [await uploadResume(file)] does: it resolves, or it rejects
    with a value that carries a message when it is an [Error]. *)
Inductive UploadResult : Type :=
| Resolves
| Rejects (message : option string).

Record World : Type := mkWorld {
  uploadProgress : Z;
  currentFile : option File;
  isProcessing : bool;
  nextIntervalId : nat;
  uploadResume : File -> UploadResult;
  log : list Event
}.

Definition M := Eff.M World (option string).

Definition emit (e : Event) : M unit :=
  Eff.modify (fun w =>
    mkWorld (uploadProgress w) (currentFile w) (isProcessing w)
            (nextIntervalId w) (uploadResume w) (log w ++ [e])).

Definition toast (title description : string) (variant : Variant) : M unit :=
  emit (EToast title description variant).

Definition setUploadProgress (v : Z) : M unit :=
  Eff.modify (fun w =>
    mkWorld v (currentFile w) (isProcessing w)
            (nextIntervalId w) (uploadResume w) (log w)).

Definition setCurrentFile (f : option File) : M unit :=
  Eff.modify (fun w =>
    mkWorld (uploadProgress w) f (isProcessing w)
            (nextIntervalId w) (uploadResume w) (log w)).

Definition setIsProcessing (b : bool) : M unit :=
  Eff.modify (fun w =>
    mkWorld (uploadProgress w) (currentFile w) b
            (nextIntervalId w) (uploadResume w) (log w)).

Definition setInterval (ms : Z) : M nat :=
  fun w =>
    let iid := nextIntervalId w in
    (Eff.Returned iid,
     mkWorld (uploadProgress w) (currentFile w) (isProcessing w)
             (S iid) (uploadResume w) (log w ++ [ESetInterval iid ms])).

Definition clearInterval (iid : nat) : M unit := emit (EClearInterval iid).

Definition await_uploadResume (file : File) : M unit :=
  (emit (EUploadResume file) ;;
   w <- Eff.get ;;
   match uploadResume w file with
   | Resolves => Eff.ret tt
   | Rejects message => Eff.throw message
   end)%eff.

(** One tick of the simulated progress: the new value, and whether the
    interval clears itself. *)
Definition progressTick (prev : Z) : Z * bool :=
  if prev >=? 90 then (90, true) else (prev + 15, false).

Definition validTypes : list string :=
  [ "application/pdf";
    "application/msword";
    "application/vnd.openxmlformats-officedocument.wordprocessingml.document" ].

Definition maxFileSize : Z := 5 * 1024 * 1024.

Definition onDrop (user : option User) (acceptedFiles : list File) : M unit :=
  match acceptedFiles, user with
  | file :: _, Some _ =>
    if negb (Js.includes validTypes (file_type file)) then
      toast "Invalid file type" "Please upload a PDF or Word document"
            VariantDestructive
    else if file_size file >? maxFileSize then
      toast "File too large" "Please upload a file smaller than 5MB"
            VariantDestructive
    else
      Eff.try_catch
        (setCurrentFile (Some file) ;;
         setIsProcessing true ;;
         setUploadProgress 0 ;;
         progressInterval <- setInterval 300 ;;
         await_uploadResume file ;;
         clearInterval progressInterval ;;
         setUploadProgress 100 ;;
         toast "Resume processed successfully"
               "Profile has been automatically updated with extracted data"
               VariantDefault ;;
         emit (ESetTimeout 2000))%eff
        (fun error =>
           (emit (EConsoleError "Upload failed:") ;;
            setUploadProgress 0 ;;
            setCurrentFile None ;;
            setIsProcessing false ;;
            toast "Processing failed"
                  (match error with
                   | Some message => message
                   | None => "Please try again"
                   end)
                  VariantDestructive)%eff)
  | _, _ => Eff.ret tt
  end.

Definition drop (user : option User) (acceptedFiles : list File) (w : World)
  : World :=
  Eff.exec (onDrop user acceptedFiles) w.

(** The network calls and the notifications in a log. *)
Definition isUpload (e : Event) : bool :=
  match e with EUploadResume _ => true | _ => false end.

Definition isToast (e : Event) : bool :=
  match e with EToast _ _ _ => true | _ => false end.

Definition uploadCalls (l : list Event) : list Event := filter isUpload l.
Definition toasts (l : list Event) : list Event := filter isToast l.

Definition idle (svc : File -> UploadResult) : World :=
  mkWorld 0 None false 0%nat svc [].

End ResumeUpload.

(** ** Vocabulary of the statements *)

Module Toggle.
Import DSASheet.

(** The collaborator call a toggle of [itemId] issues when the rendered
    favourites are [favs]. *)
Definition call (uid : string) (favs : list string) (itemId : string)
  : ServiceCall :=
  if Js.includes favs itemId then RemoveFromFavorites uid itemId
  else AddToFavorites uid itemId.

(** The favourites after a toggle that went through. *)
Definition result (favs : list string) (itemId : string) : list string :=
  if Js.includes favs itemId then Js.without favs itemId
  else Js.appended favs itemId.

Definition message (favs : list string) (itemId : string) : string :=
  if Js.includes favs itemId then "Removed from favorites"
  else "Added to favorites".
End Toggle.

Module Sync.
Import DSASheet.

(** One save is pending and nothing else: the timer of the effect that
    ran at time [t] for [filters], due a debounce delay later. *)
Definition pendingSave
    (user : option User) (filters : Filters) (t : Z) (w : World) : Prop :=
  exists tid,
    timers w = [mkTimer tid (t + debounceDelay) (SaveFiltersCb user filters)]
    /\ effectTimer w = Some tid
    /\ clock w = t.

(** Filter changes one after the other, each with its time. *)
Definition applyChanges
    (user : option User) (changes : list (Z * Filters)) (w : World) : World :=
  fold_left (fun acc ch => changeFilters user (fst ch) (snd ch) acc) changes w.

(** Each change comes less than a debounce delay after the one before
    it, the first one after time [t]. *)
Fixpoint quickSuccession (t : Z) (changes : list (Z * Filters)) : Prop :=
  match changes with
  | [] => True
  | ch :: rest =>
    t <= fst ch /\ fst ch < t + debounceDelay /\ quickSuccession (fst ch) rest
  end.
End Sync.

(** Sample data for the worked examples. *)
Module Sample.
Definition alice : User := mkUser "u-17".

Definition alwaysOk : nat -> DSASheet.ServiceCall -> bool := fun _ _ => true.
Definition alwaysDown : nat -> DSASheet.ServiceCall -> bool :=
  fun _ _ => false.

Definition sheet (svc : nat -> DSASheet.ServiceCall -> bool)
    (favs : list string) : DSASheet.World :=
  DSASheet.mkWorld favs None [] 0%nat 0 svc 0%nat [].

Definition noFilters : Filters := clearAllFilters.
Definition easyOnly : Filters := mkFilters ["Easy"] [] [].
Definition easyHard : Filters := mkFilters ["Easy"; "Hard"] [] [].
Definition easyHardInside : Filters :=
  mkFilters ["Easy"; "Hard"] ["inside"] [].

Definition arrays : FilterDerivation.Entry :=
  FilterDerivation.mkEntry "arrays" "Arrays" "Easy" "inside".
Definition graphs : FilterDerivation.Entry :=
  FilterDerivation.mkEntry "graphs" "Graph Theory" "Hard" "outside".
Definition adobe : FilterDerivation.Entry :=
  FilterDerivation.mkEntry "adobe" "Adobe" "Medium" "outside".
Definition catalog : list FilterDerivation.Entry := [arrays; graphs; adobe].

Definition png (size : Z) : ResumeUpload.File :=
  ResumeUpload.mkFile "photo.png" "image/png" size.
Definition pdf (size : Z) : ResumeUpload.File :=
  ResumeUpload.mkFile "cv.pdf" "application/pdf" size.
Definition accepting : ResumeUpload.File -> ResumeUpload.UploadResult :=
  fun _ => ResumeUpload.Resolves.
Definition MiB : Z := 1024 * 1024.
End Sample.

(** ** More of the components

    The rest of the filter panel, the sibling panel [RouteFilters], the
    loading of the preferences, what the sheet and the upload card render
    from their state. *)

Module FilterPanel.

(** The number in the badge of the panel header. *)
Definition activeCount (filters : Filters) : nat :=
  (List.length (difficulty filters) + List.length (category filters)
   + List.length (companies filters))%nat.

(** The three groups of check boxes, to speak of "the handler of a
    group" and "the array of a group". *)
Inductive Dimension : Type := Difficulty | Category | Companies.

Definition selected (dim : Dimension) (filters : Filters) : list string :=
  match dim with
  | Difficulty => difficulty filters
  | Category => category filters
  | Companies => companies filters
  end.

Definition handleChange
    (dim : Dimension) (filters : Filters) (x : string) (checked : bool)
  : Filters :=
  match dim with
  | Difficulty => handleDifficultyChange filters x checked
  | Category => handleCategoryChange filters x checked
  | Companies => handleCompanyChange filters x checked
  end.

End FilterPanel.

Module RouteFilters.

Record Filters : Type := mkFilters { difficulty : list string }.

Definition difficulties : list string := ["Easy"; "Medium"; "Hard"].

Definition handleDifficultyChange
    (filters : Filters) (d : string) (checked : bool) : Filters :=
  let newDifficulties :=
    if checked then Js.appended (difficulty filters) d
    else Js.without (difficulty filters) d in
  {| difficulty := newDifficulties |}.

(** What [clearAllFilters] hands to [onFiltersChange] and to
    [onShowFavoritesChange]. *)
Definition clearAllFilters : Filters * bool :=
  ({| difficulty := [] |}, false).

Definition hasActiveFilters (filters : Filters) (showFavoritesOnly : bool)
  : bool :=
  negb (Js.isEmpty (difficulty filters)) || showFavoritesOnly.

(** The number in the badge next to "Filters". *)
Definition activeCount (filters : Filters) (showFavoritesOnly : bool) : nat :=
  (List.length (difficulty filters) + (if showFavoritesOnly then 1 else 0))%nat.

Definition getDifficultyColor (d : string) : string :=
  if String.eqb d "Easy" then "text-green-600 dark:text-green-400"
  else if String.eqb d "Medium" then "text-yellow-600 dark:text-yellow-400"
  else if String.eqb d "Hard" then "text-red-600 dark:text-red-400"
  else "".

End RouteFilters.

(** Loading the saved filters and the favourites when the sheet mounts. *)
Module Preferences.

Inductive Response (A : Type) : Type :=
| Resolved (a : A)
| Rejected.
Arguments Resolved {A} a.
Arguments Rejected {A}.

Record Service : Type := mkService {
  getFilters : string -> Response (option Filters);
  getFavorites : string -> Response (list string)
}.

Inductive Event : Type :=
| EGetFilters (uid : string)
| EGetFavorites (uid : string)
| EConsoleError (message : string).

Record World : Type := mkWorld {
  filters : Filters;
  favorites : list string;
  service : Service;
  log : list Event
}.

Definition M := Eff.M World unit.

Definition emit (e : Event) : M unit :=
  Eff.modify (fun w =>
    mkWorld (filters w) (favorites w) (service w) (log w ++ [e])).

Definition await_getFilters (uid : string) : M (option Filters) :=
  (emit (EGetFilters uid) ;;
   w <- Eff.get ;;
   match getFilters (service w) uid with
   | Resolved saved => Eff.ret saved
   | Rejected => Eff.throw tt
   end)%eff.

Definition await_getFavorites (uid : string) : M (list string) :=
  (emit (EGetFavorites uid) ;;
   w <- Eff.get ;;
   match getFavorites (service w) uid with
   | Resolved favs => Eff.ret favs
   | Rejected => Eff.throw tt
   end)%eff.

Definition setFilters (f : Filters) : M unit :=
  Eff.modify (fun w => mkWorld f (favorites w) (service w) (log w)).

Definition setFavorites (favs : list string) : M unit :=
  Eff.modify (fun w => mkWorld (filters w) favs (service w) (log w)).

Definition loadUserPreferences (user : option User) : M unit :=
  match userId user with
  | None => Eff.ret tt
  | Some uid =>
    Eff.try_catch
      (savedFilters <- await_getFilters uid ;;
       match savedFilters with
       | Some saved => setFilters saved
       | None => Eff.ret tt
       end ;;
       userFavorites <- await_getFavorites uid ;;
       setFavorites userFavorites)%eff
      (fun _ => emit (EConsoleError "Error loading user preferences:"))
  end.

Definition load (user : option User) (w : World) : World :=
  Eff.exec (loadUserPreferences user) w.

End Preferences.

(** What the sheet renders from its state. *)
Module SheetView.

Record Problem : Type := mkProblem {
  problem_difficulty : string;
  completed : bool
}.

(** [company.problems.filter(p => p.difficulty === diff).length] *)
Definition countDifficulty (problems : list Problem) (diff : string) : nat :=
  List.length (filter (fun p => String.eqb (problem_difficulty p) diff) problems).

(** The badges of the difficulty breakdown of a company card, each with
    its count: none when a difficulty filter is set, and no badge for a
    count of zero. *)
Definition difficultyBreakdown (filters : Filters) (problems : list Problem)
  : list (nat * string) :=
  if Js.isEmpty (difficulty filters) then
    filter (fun badge => negb (Nat.eqb (fst badge) 0))
      (map (fun diff => (countDifficulty problems diff, diff))
           ["Easy"; "Medium"; "Hard"])
  else [].

(** [filteredProblems.filter(p => p.completed).length] *)
Definition solvedCount (filteredProblems : list Problem) : nat :=
  List.length (filter completed filteredProblems).

(** Whether the statistics card shows "Filtered Results". *)
Definition showsFiltered (activeTab : string) (filters : Filters) : bool :=
  if String.eqb activeTab "topics" then
    negb (Js.isEmpty (difficulty filters))
    || negb (Js.isEmpty (category filters))
  else
    negb (Js.isEmpty (difficulty filters))
    || negb (Js.isEmpty (companies filters)).

Definition badgeTotal (badges : list (nat * string)) : nat :=
  fold_right (fun badge acc => (fst badge + acc)%nat) 0%nat badges.

Definition isListedDifficulty (p : Problem) : bool :=
  Js.includes ["Easy"; "Medium"; "Hard"] (problem_difficulty p).

End SheetView.

(** What the upload card renders from its state, and its small handlers. *)
Module ResumeView.

Definition isSome {A} (o : option A) : bool :=
  match o with Some _ => true | None => false end.

(** The three panels: [!currentResume && !currentFile],
    [currentFile && !currentResume], [currentResume]. *)
Definition uploadAreaShown {R} (currentResume : option R)
    (currentFile : option ResumeUpload.File) : bool :=
  negb (isSome currentResume) && negb (isSome currentFile).

Definition previewShown {R} (currentResume : option R)
    (currentFile : option ResumeUpload.File) : bool :=
  isSome currentFile && negb (isSome currentResume).

Definition currentResumeShown {R} (currentResume : option R) : bool :=
  isSome currentResume.

Definition progressLabel (uploadProgress : Z) : string :=
  if uploadProgress <? 30 then "Uploading document..."
  else if uploadProgress <? 70 then "Extracting text..."
  else if uploadProgress <? 90 then "AI processing..."
  else "Completing...".

(** The simulated progress as a state: the value shown and whether the
    interval is still running.  A tick of a cleared interval does not
    happen. *)
Definition intervalTick (st : Z * bool) : Z * bool :=
  if snd st then
    let r := ResumeUpload.progressTick (fst st) in (fst r, negb (snd r))
  else st.

Fixpoint afterTicks (n : nat) (st : Z * bool) : Z * bool :=
  match n with
  | O => st
  | S n' => afterTicks n' (intervalTick st)
  end.

(** [onRemove] of the document preview. *)
Definition onRemove : ResumeUpload.M unit :=
  (ResumeUpload.setCurrentFile None ;;
   ResumeUpload.setUploadProgress 0 ;;
   ResumeUpload.setIsProcessing false)%eff.

(** [handleDelete]: the deletion itself is still to be written. *)
Definition handleDelete : ResumeUpload.M unit :=
  ResumeUpload.toast "Resume deleted"
    "Your resume has been removed from your profile"
    ResumeUpload.VariantDefault.

End ResumeView.

Module SyncMore.
Import DSASheet.

(** The callback belongs to a render with nobody signed in. *)
Definition signedOutCallback (cb : Callback) : Prop :=
  match cb with SaveFiltersCb user _ => userId user = None end.

Definition allSignedOut (w : World) : Prop :=
  forall tm, In tm (timers w) -> signedOutCallback (callback tm).

End SyncMore.

(** ** The favourites handler cut at its [await]

    An [async] handler runs up to its [await] and hands control back:
    the guard has been passed, the branch has been chosen on the
    [favorites] of the render, the call has been issued.  The rest of the
    [try] block, or the [catch] block, runs when the call settles, and
    other clicks may come in between. *)

Module ToggleSteps.
Import DSASheet.

Inductive Branch : Type := Removing | Adding.

(** A handler run waiting at its [await]: the branch it is in, the item,
    and how the call it issued will settle. *)
Record InFlight : Type := mkInFlight {
  branch : Branch;
  item : string;
  resolves : bool
}.

(** [dsaService.<call>] is issued; its answer comes later. *)
Definition issue_call (c : ServiceCall) : M bool :=
  fun w =>
    (Eff.Returned (service w (ncalls w) c),
     mkWorld (favorites w) (effectTimer w) (timers w) (nextTimerId w)
             (clock w) (service w) (S (ncalls w)) (log w ++ [ECall c])).

(** [handleToggleFavorite] up to its [await]. *)
Definition startToggle
    (user : option User) (favorites : list string) (itemId : string)
  : M (option InFlight) :=
  match userId user with
  | None =>
    (toast_error "Please sign in to add favorites" ;; Eff.ret None)%eff
  | Some uid =>
    if Js.includes favorites itemId then
      (ok <- issue_call (RemoveFromFavorites uid itemId) ;;
       Eff.ret (Some (mkInFlight Removing itemId ok)))%eff
    else
      (ok <- issue_call (AddToFavorites uid itemId) ;;
       Eff.ret (Some (mkInFlight Adding itemId ok)))%eff
  end.

(** [handleToggleFavorite] from its [await] on: the call has settled. *)
Definition finishToggle (p : InFlight) : M unit :=
  Eff.try_catch
    (if resolves p then
       match branch p with
       | Removing =>
         (setFavorites (fun prev => Js.without prev (item p)) ;;
          toast_success "Removed from favorites")%eff
       | Adding =>
         (setFavorites (fun prev => Js.appended prev (item p)) ;;
          toast_success "Added to favorites")%eff
       end
     else Eff.throw tt)
    (fun _ => toast_error "Error updating favorites").

(** A click on the star of [itemId]: the handler of the current render
    starts. *)
Definition click (user : option User) (itemId : string) (w : World)
  : option InFlight * World :=
  match startToggle user (favorites w) itemId w with
  | (Eff.Returned p, w') => (p, w')
  | (Eff.Thrown _, w') => (None, w')
  end.

(** The call of a waiting run settles. *)
Definition settle (p : option InFlight) (w : World) : World :=
  match p with
  | Some run => Eff.exec (finishToggle run) w
  | None => w
  end.

(** Two clicks in turn: the second one comes after the call of the
    first has settled, so its handler is the one of the new render. *)
Definition clicksInTurn (user : option User) (itemId : string) (w : World)
  : World :=
  let first := click user itemId w in
  let w1 := settle (fst first) (snd first) in
  let second := click user itemId w1 in
  settle (fst second) (snd second).

(** Two clicks overlapping: the second one comes while the call of the
    first is pending.  Nothing has changed the favourites yet, so its
    handler closes over the same array; then the two calls settle. *)
Definition clicksOverlapping
    (user : option User) (itemId : string) (w : World) : World :=
  let first := click user itemId w in
  let second := click user itemId (snd first) in
  settle (fst second) (settle (fst first) (snd second)).

End ToggleSteps.

(** ** The filter panel *)

(** C10. Each check-box handler of the filter panel (difficulty, category,
    company) hands on a filter object in which the two dimensions it is
    not about are those of the filter object it started from. *)
Theorem filter_handlers_frame (filters : Filters) (x : string) (checked : bool) :
  (category (handleDifficultyChange filters x checked) = category filters
   /\ companies (handleDifficultyChange filters x checked) = companies filters)
  /\ (difficulty (handleCategoryChange filters x checked) = difficulty filters
      /\ companies (handleCategoryChange filters x checked) = companies filters)
  /\ (difficulty (handleCompanyChange filters x checked) = difficulty filters
      /\ category (handleCompanyChange filters x checked) = category filters).
Proof.
  unfold handleDifficultyChange, handleCategoryChange, handleCompanyChange.
  repeat split; reflexivity.
Qed.

Example difficulty_checked :
  handleDifficultyChange Sample.easyOnly "Hard" true = Sample.easyHard.
Proof. reflexivity. Qed.

Example difficulty_unchecked :
  handleDifficultyChange Sample.easyHardInside "Hard" false
  = mkFilters ["Easy"] ["inside"] [].
Proof. reflexivity. Qed.

(** ** Arrays used as sets *)

Lemma includes_In (xs : list string) (x : string) :
  Js.includes xs x = true <-> In x xs.
Proof.
  unfold Js.includes. rewrite existsb_exists. split.
  - intros [y [Hy Heq]]. apply String.eqb_eq in Heq. now subst.
  - intros H. exists x. split; [assumption | apply String.eqb_refl].
Qed.

Lemma In_without (xs : list string) (x y : string) :
  In y (Js.without xs x) <-> In y xs /\ y <> x.
Proof.
  unfold Js.without. rewrite filter_In. rewrite negb_true_iff.
  rewrite String.eqb_neq. reflexivity.
Qed.

Lemma without_absent (xs : list string) (x : string) :
  Js.includes xs x = false -> Js.without xs x = xs.
Proof.
  induction xs as [|a xs IH]; simpl; [reflexivity|].
  intros H. apply orb_false_iff in H. destruct H as [Hxa Hrest].
  rewrite String.eqb_sym, Hxa. simpl. now rewrite IH.
Qed.

Lemma without_appended (xs : list string) (x : string) :
  Js.includes xs x = false -> Js.without (Js.appended xs x) x = xs.
Proof.
  intros H. unfold Js.appended, Js.without. rewrite filter_app. simpl.
  rewrite String.eqb_refl. simpl. rewrite app_nil_r.
  now apply without_absent.
Qed.

Lemma includes_appended (xs : list string) (x : string) :
  Js.includes (Js.appended xs x) x = true.
Proof.
  apply includes_In. unfold Js.appended. apply in_or_app. right. now left.
Qed.

Lemma includes_without (xs : list string) (x : string) :
  Js.includes (Js.without xs x) x = false.
Proof.
  destruct (Js.includes (Js.without xs x) x) eqn:E; [|reflexivity].
  apply includes_In, In_without in E. destruct E as [_ E]. now elim E.
Qed.

(** Toggling twice, both toggles going through, keeps the membership. *)
Lemma result_result (favs : list string) (x y : string) :
  In y (Toggle.result (Toggle.result favs x) x) <-> In y favs.
Proof.
  unfold Toggle.result at 2. destruct (Js.includes favs x) eqn:E.
  - unfold Toggle.result. rewrite includes_without.
    unfold Js.appended. rewrite in_app_iff, In_without. simpl.
    apply includes_In in E. split.
    + intros [[H _] | [H | []]]; [assumption | now subst].
    + intros H. destruct (String.eqb_spec y x) as [-> | Hne]; auto.
  - unfold Toggle.result. rewrite includes_appended.
    now rewrite without_appended.
Qed.

(** ** The favourites toggle *)

Section ToggleFacts.
Import DSASheet.
Variables (user : option User) (uid : string).
Hypothesis signed_in : userId user = Some uid.

(** What one click does for a signed-in user, by the answer of the
    collaborator. *)
Lemma toggle_signed_in (x : string) (w : World) :
  toggle user x w =
  if service w (ncalls w) (Toggle.call uid (favorites w) x) then
    mkWorld (Toggle.result (favorites w) x) (effectTimer w) (timers w)
            (nextTimerId w) (clock w) (service w) (S (ncalls w))
            (log w ++ [ECall (Toggle.call uid (favorites w) x);
                       ESetFavorites (Toggle.result (favorites w) x);
                       EToast ToastSuccess (Toggle.message (favorites w) x)])
  else
    mkWorld (favorites w) (effectTimer w) (timers w)
            (nextTimerId w) (clock w) (service w) (S (ncalls w))
            (log w ++ [ECall (Toggle.call uid (favorites w) x);
                       EToast ToastError "Error updating favorites"]).
Proof.
  unfold toggle, clickFavorite, handleToggleFavorite, Eff.exec, Eff.bind,
    Eff.get, Eff.try_catch, Toggle.call, Toggle.result, Toggle.message.
  rewrite signed_in.
  destruct (Js.includes (favorites w) x);
    unfold await_call, setFavorites, toast_success, toast_error, emit,
      Eff.modify; cbn [fst snd];
    match goal with |- context [service w (ncalls w) ?c] =>
      destruct (service w (ncalls w) c) end;
    cbn; repeat rewrite <- app_assoc; reflexivity.
Qed.
End ToggleFacts.

Lemma toggle_signed_out (user : option User) (x : string) (w : DSASheet.World) :
  userId user = None ->
  DSASheet.favorites (DSASheet.toggle user x w) = DSASheet.favorites w
  /\ DSASheet.ncalls (DSASheet.toggle user x w) = DSASheet.ncalls w
  /\ DSASheet.log (DSASheet.toggle user x w)
     = (DSASheet.log w
        ++ [DSASheet.EToast DSASheet.ToastError
              "Please sign in to add favorites"])%list.
Proof.
  intros H. unfold DSASheet.toggle, DSASheet.clickFavorite,
    DSASheet.handleToggleFavorite, Eff.exec, Eff.bind, Eff.get.
  rewrite H. cbn. auto.
Qed.

(** C1, as the code has it. For a signed-in user the toggle first issues
    the persistence call (remove when the item is among the rendered
    favourites, add otherwise); the local favourites are changed after the
    call, and only when it succeeded. When it fails the favourites stay
    and an error is shown. *)
Theorem toggle_calls_then_mutates
    (user : option User) (uid x : string) (w : DSASheet.World) :
  userId user = Some uid ->
  let c := Toggle.call uid (DSASheet.favorites w) x in
  let w' := DSASheet.toggle user x w in
  (DSASheet.service w (DSASheet.ncalls w) c = true ->
     DSASheet.log w'
     = (DSASheet.log w
        ++ [DSASheet.ECall c;
            DSASheet.ESetFavorites (Toggle.result (DSASheet.favorites w) x);
            DSASheet.EToast DSASheet.ToastSuccess
              (Toggle.message (DSASheet.favorites w) x)])%list
     /\ DSASheet.favorites w' = Toggle.result (DSASheet.favorites w) x)
  /\ (DSASheet.service w (DSASheet.ncalls w) c = false ->
     DSASheet.log w'
     = (DSASheet.log w
        ++ [DSASheet.ECall c;
            DSASheet.EToast DSASheet.ToastError "Error updating favorites"])%list
     /\ DSASheet.favorites w' = DSASheet.favorites w).
Proof.
  intros Huid c w'. subst c w'.
  rewrite (toggle_signed_in user uid Huid x w).
  split; intros Hsvc; rewrite Hsvc; cbn; split; reflexivity.
Qed.

Lemma toggle_calls_then_mutates_witness :
  userId (Some Sample.alice) = Some "u-17"
  /\ DSASheet.log
       (DSASheet.toggle (Some Sample.alice) "arrays"
          (Sample.sheet Sample.alwaysOk ["graphs"]))
     = [DSASheet.ECall (DSASheet.AddToFavorites "u-17" "arrays");
        DSASheet.ESetFavorites ["graphs"; "arrays"];
        DSASheet.EToast DSASheet.ToastSuccess "Added to favorites"].
Proof.
  split; [reflexivity|].
  exact (proj1 (proj1 (toggle_calls_then_mutates (Some Sample.alice) "u-17"
    "arrays" (Sample.sheet Sample.alwaysOk ["graphs"]) eq_refl) eq_refl)).
Defined.

(** C1, as stated, fails: on an added favourite the log opens with the
    persistence call and the local change comes second, so no local
    mutation precedes a call. *)
Lemma toggle_is_not_optimistic :
  DSASheet.log
    (DSASheet.toggle (Some Sample.alice) "arrays"
       (Sample.sheet Sample.alwaysOk []))
  = [DSASheet.ECall (DSASheet.AddToFavorites "u-17" "arrays");
     DSASheet.ESetFavorites ["arrays"];
     DSASheet.EToast DSASheet.ToastSuccess "Added to favorites"]
  /\ DSASheet.mutationBeforeCall
       (DSASheet.log
          (DSASheet.toggle (Some Sample.alice) "arrays"
             (Sample.sheet Sample.alwaysOk [])))
     = false.
Proof. split; reflexivity. Qed.

(** Two runs of the uncut handler, one after the other, both calls
    succeeding, keep the membership. *)
Lemma toggle_toggle_membership
    (user : option User) (x : string) (w : DSASheet.World) :
  (forall c, DSASheet.service w (DSASheet.ncalls w) c = true) ->
  (forall c, DSASheet.service w (S (DSASheet.ncalls w)) c = true) ->
  forall y,
    In y (DSASheet.favorites (DSASheet.toggle user x (DSASheet.toggle user x w)))
    <-> In y (DSASheet.favorites w).
Proof.
  intros H1 H2 y. destruct (userId user) as [uid|] eqn:Huid.
  - rewrite (toggle_signed_in user uid Huid x (DSASheet.toggle user x w)).
    rewrite (toggle_signed_in user uid Huid x w).
    rewrite H1. cbn. rewrite H2. cbn. apply result_result.
  - destruct (toggle_signed_out user x (DSASheet.toggle user x w) Huid)
      as [-> _].
    destruct (toggle_signed_out user x w Huid) as [-> _]. reflexivity.
Qed.

(** The handler cut at its [await] is the handler: starting a run and
    settling its call at once is one run of [handleToggleFavorite]. *)
Lemma start_then_settle
    (user : option User) (favs : list string) (x : string)
    (w : DSASheet.World) :
  Eff.exec (DSASheet.handleToggleFavorite user favs x) w
  = match ToggleSteps.startToggle user favs x w with
    | (Eff.Returned p, w') => ToggleSteps.settle p w'
    | (Eff.Thrown _, w') => w'
    end.
Proof.
  unfold DSASheet.handleToggleFavorite, ToggleSteps.startToggle.
  destruct (userId user) as [uid|]; [|reflexivity].
  destruct (Js.includes favs x);
    unfold Eff.exec, Eff.try_catch, Eff.bind, Eff.ret, DSASheet.await_call,
      ToggleSteps.issue_call, ToggleSteps.settle, ToggleSteps.finishToggle,
      Eff.exec, Eff.try_catch, Eff.throw;
    match goal with |- context [DSASheet.service w (DSASheet.ncalls w) ?c] =>
      destruct (DSASheet.service w (DSASheet.ncalls w) c) end;
    reflexivity.
Qed.

Lemma click_then_settle
    (user : option User) (x : string) (w : DSASheet.World) :
  ToggleSteps.settle (fst (ToggleSteps.click user x w))
    (snd (ToggleSteps.click user x w))
  = DSASheet.toggle user x w.
Proof.
  unfold DSASheet.toggle, DSASheet.clickFavorite.
  unfold Eff.exec at 1. unfold Eff.bind, Eff.get.
  change (snd (DSASheet.handleToggleFavorite user (DSASheet.favorites w) x w))
    with (Eff.exec
            (DSASheet.handleToggleFavorite user (DSASheet.favorites w) x) w).
  rewrite start_then_settle. unfold ToggleSteps.click.
  destruct (ToggleSteps.startToggle user (DSASheet.favorites w) x w)
    as [[p|e] w']; reflexivity.
Qed.

Lemma clicksInTurn_toggles
    (user : option User) (x : string) (w : DSASheet.World) :
  ToggleSteps.clicksInTurn user x w
  = DSASheet.toggle user x (DSASheet.toggle user x w).
Proof.
  unfold ToggleSteps.clicksInTurn. cbv zeta.
  now rewrite (click_then_settle user x w), click_then_settle.
Qed.

(** What two overlapping clicks of a signed-in user leave when both
    calls succeed: both runs took the branch of the same render, so the
    item is removed twice or added twice. *)
Lemma clicksOverlapping_signed_in
    (user : option User) (uid x : string) (w : DSASheet.World) :
  userId user = Some uid ->
  (forall c, DSASheet.service w (DSASheet.ncalls w) c = true) ->
  (forall c, DSASheet.service w (S (DSASheet.ncalls w)) c = true) ->
  DSASheet.favorites (ToggleSteps.clicksOverlapping user x w)
  = if Js.includes (DSASheet.favorites w) x
    then Js.without (Js.without (DSASheet.favorites w) x) x
    else Js.appended (Js.appended (DSASheet.favorites w) x) x.
Proof.
  intros Huid H1 H2.
  unfold ToggleSteps.clicksOverlapping, ToggleSteps.click,
    ToggleSteps.startToggle. cbv zeta. rewrite Huid.
  destruct (Js.includes (DSASheet.favorites w) x) eqn:E;
    unfold Eff.bind, Eff.ret, ToggleSteps.issue_call;
    cbn [fst snd DSASheet.favorites DSASheet.ncalls DSASheet.service];
    rewrite E;
    cbn [fst snd DSASheet.favorites DSASheet.ncalls DSASheet.service];
    rewrite H1, H2; reflexivity.
Qed.

(** C3, as the code has it. Two toggles of the same item in turn, the
    second click coming after the call of the first has settled, both
    persistence calls succeeding, leave a favourites array with the
    membership it had. *)
Theorem toggle_twice_in_turn_same_set
    (user : option User) (x : string) (w : DSASheet.World) :
  (forall c, DSASheet.service w (DSASheet.ncalls w) c = true) ->
  (forall c, DSASheet.service w (S (DSASheet.ncalls w)) c = true) ->
  forall y,
    In y (DSASheet.favorites (ToggleSteps.clicksInTurn user x w))
    <-> In y (DSASheet.favorites w).
Proof.
  intros H1 H2 y. rewrite clicksInTurn_toggles.
  now apply toggle_toggle_membership.
Qed.

Lemma toggle_twice_in_turn_same_set_witness :
  In "arrays"
     (DSASheet.favorites
        (ToggleSteps.clicksInTurn (Some Sample.alice) "arrays"
           (Sample.sheet Sample.alwaysOk ["arrays"; "graphs"])))
  <-> In "arrays" ["arrays"; "graphs"].
Proof.
  apply (toggle_twice_in_turn_same_set (Some Sample.alice) "arrays"
           (Sample.sheet Sample.alwaysOk ["arrays"; "graphs"]));
    intros c; reflexivity.
Defined.

(** C3, as stated, fails: a second click that comes while the call of
    the first is pending runs the handler of the same render, which
    still sees the item among the favourites; both removals succeed and
    the item is gone, where two toggles should have kept it.  From no
    favourites the item is added twice and stays. *)
Lemma toggle_twice_overlapping_not_same_set :
  DSASheet.favorites
    (ToggleSteps.clicksOverlapping (Some Sample.alice) "arrays"
       (Sample.sheet Sample.alwaysOk ["arrays"; "graphs"]))
  = ["graphs"]
  /\ DSASheet.log
       (ToggleSteps.clicksOverlapping (Some Sample.alice) "arrays"
          (Sample.sheet Sample.alwaysOk ["arrays"; "graphs"]))
     = [DSASheet.ECall (DSASheet.RemoveFromFavorites "u-17" "arrays");
        DSASheet.ECall (DSASheet.RemoveFromFavorites "u-17" "arrays");
        DSASheet.ESetFavorites ["graphs"];
        DSASheet.EToast DSASheet.ToastSuccess "Removed from favorites";
        DSASheet.ESetFavorites ["graphs"];
        DSASheet.EToast DSASheet.ToastSuccess "Removed from favorites"]
  /\ ~ (forall y,
          In y (DSASheet.favorites
                  (ToggleSteps.clicksOverlapping (Some Sample.alice) "arrays"
                     (Sample.sheet Sample.alwaysOk ["arrays"; "graphs"])))
          <-> In y ["arrays"; "graphs"])
  /\ DSASheet.favorites
       (ToggleSteps.clicksOverlapping (Some Sample.alice) "arrays"
          (Sample.sheet Sample.alwaysOk []))
     = ["arrays"; "arrays"].
Proof.
  repeat split.
  intros H. specialize (H "arrays"). cbn in H.
  destruct H as [_ H]. destruct (H (or_introl eq_refl)) as [H'|[]].
  discriminate H'.
Qed.

Example toggle_twice_order :
  DSASheet.favorites
    (DSASheet.toggle (Some Sample.alice) "arrays"
       (DSASheet.toggle (Some Sample.alice) "arrays"
          (Sample.sheet Sample.alwaysOk ["arrays"; "graphs"])))
  = ["graphs"; "arrays"].
Proof. reflexivity. Qed.

(** C9. When the persistence call of a toggle fails, the local favourites
    are exactly what they were, and besides the call the only thing done
    is one error notification. *)
Theorem toggle_failure_keeps_favorites
    (user : option User) (uid x : string) (w : DSASheet.World) :
  userId user = Some uid ->
  DSASheet.service w (DSASheet.ncalls w)
    (Toggle.call uid (DSASheet.favorites w) x) = false ->
  DSASheet.favorites (DSASheet.toggle user x w) = DSASheet.favorites w
  /\ DSASheet.log (DSASheet.toggle user x w)
     = (DSASheet.log w
        ++ [DSASheet.ECall (Toggle.call uid (DSASheet.favorites w) x);
            DSASheet.EToast DSASheet.ToastError "Error updating favorites"])%list.
Proof.
  intros Huid Hfail.
  rewrite (toggle_signed_in user uid Huid x w), Hfail. cbn. auto.
Qed.

Lemma toggle_failure_keeps_favorites_witness :
  DSASheet.favorites
    (DSASheet.toggle (Some Sample.alice) "graphs"
       (Sample.sheet Sample.alwaysDown ["graphs"; "adobe"]))
  = ["graphs"; "adobe"]
  /\ DSASheet.log
       (DSASheet.toggle (Some Sample.alice) "graphs"
          (Sample.sheet Sample.alwaysDown ["graphs"; "adobe"]))
     = [DSASheet.ECall (DSASheet.RemoveFromFavorites "u-17" "graphs");
        DSASheet.EToast DSASheet.ToastError "Error updating favorites"].
Proof.
  exact (toggle_failure_keeps_favorites (Some Sample.alice) "u-17" "graphs"
           (Sample.sheet Sample.alwaysDown ["graphs"; "adobe"])
           eq_refl eq_refl).
Defined.

(** ** The debounced save of the filters *)

Section SyncFacts.
Import DSASheet.

Lemma savedWrites_app (l1 l2 : list Event) :
  savedWrites (l1 ++ l2) = (savedWrites l1 ++ savedWrites l2)%list.
Proof.
  induction l1 as [|e l1 IH]; [reflexivity|].
  destruct e as [[]| | |]; cbn; now rewrite IH.
Qed.

(** [saveFilters] touches the call counter and the log, nothing else. *)
Lemma saveFilters_frame (user : option User) (f : Filters) (w : World) :
  let w' := Eff.exec (saveFilters user f) w in
  favorites w' = favorites w /\ effectTimer w' = effectTimer w
  /\ timers w' = timers w /\ nextTimerId w' = nextTimerId w
  /\ clock w' = clock w /\ service w' = service w.
Proof.
  unfold saveFilters, Eff.exec. destruct (userId user) as [uid|].
  - unfold Eff.try_catch, await_call, console_error, emit, Eff.modify.
    destruct (service w (ncalls w) (SaveFilters uid f)); cbn; intuition.
  - cbn. intuition.
Qed.

Lemma saveFilters_signed_in
    (user : option User) (uid : string) (f : Filters) (w : World) :
  userId user = Some uid ->
  savedWrites (log (Eff.exec (saveFilters user f) w))
  = (savedWrites (log w) ++ [(uid, f)])%list.
Proof.
  intros H. unfold saveFilters, Eff.exec. rewrite H.
  unfold Eff.try_catch, await_call, console_error, emit, Eff.modify.
  destruct (service w (ncalls w) (SaveFilters uid f)); cbn;
    repeat rewrite savedWrites_app; cbn; now rewrite ?app_nil_r.
Qed.

Lemma saveFilters_signed_out (user : option User) (f : Filters) (w : World) :
  userId user = None -> Eff.exec (saveFilters user f) w = w.
Proof. intros H. unfold saveFilters, Eff.exec. now rewrite H. Qed.

(** Firing due timers sets no timer, keeps the effect's timer id, and
    moves the clock no further than the time reached. *)
Lemma fireTimer_frame (tm : Timer) (w : World) :
  (forall x, In x (timers (fireTimer tm w)) -> In x (timers w))
  /\ effectTimer (fireTimer tm w) = effectTimer w
  /\ clock (fireTimer tm w) = Z.max (clock w) (deadline tm).
Proof.
  unfold fireTimer. destruct (callback tm) as [user f]. cbn [runCallback].
  match goal with |- context [Eff.exec _ ?w0] =>
    destruct (saveFilters_frame user f w0) as (_ & He & Ht & _ & Hc & _) end.
  rewrite He, Ht, Hc. cbn. repeat split.
  intros x Hx. apply filter_In in Hx. tauto.
Qed.

Lemma fireDue_frame (t : Z) (due : list Timer) :
  forall w,
    (forall x, In x (timers (fireDue t due w)) -> In x (timers w))
    /\ effectTimer (fireDue t due w) = effectTimer w
    /\ clock w <= clock (fireDue t due w) <= Z.max (clock w) t.
Proof.
  induction due as [|tm due IH]; intros w; cbn [fireDue].
  - repeat split; auto; lia.
  - destruct ((deadline tm <=? t) && isPending (timer_id tm) w) eqn:E.
    + apply andb_true_iff in E. destruct E as [Hd _].
      apply Z.leb_le in Hd.
      destruct (IH (fireTimer tm w)) as (Ht & He & Hc).
      destruct (fireTimer_frame tm w) as (Ht' & He' & Hc').
      rewrite Hc' in Hc. repeat split; auto; try congruence; lia.
    + apply IH.
Qed.

Lemma onlyEffectTimer_advanceTo (t : Z) (w : World) :
  onlyEffectTimer w -> onlyEffectTimer (advanceTo t w).
Proof.
  intros H tm Hin. unfold advanceTo in *. cbn in *.
  destruct (fireDue_frame t (timers w) w) as (Ht & He & _).
  rewrite He. auto.
Qed.

Lemma clock_advanceTo (t : Z) (w : World) :
  clock w <= t -> clock (advanceTo t w) = t.
Proof.
  intros H. unfold advanceTo. cbn.
  destruct (fireDue_frame t (timers w) w) as (_ & _ & Hc). lia.
Qed.

(** The cleanup of the effect cancels every pending save; the effect
    then leaves its own as the only one. *)
Lemma commitFilters_shape (user : option User) (f : Filters) (w : World) :
  onlyEffectTimer w ->
  Eff.exec (commitFilters user f) w
  = mkWorld (favorites w) (Some (nextTimerId w))
      [mkTimer (nextTimerId w) (clock w + debounceDelay)
               (SaveFiltersCb user f)]
      (S (nextTimerId w)) (clock w) (service w) (ncalls w) (log w).
Proof.
  intros Hinv.
  assert (Hclear : forall tid, effectTimer w = Some tid ->
            filter (fun tm => negb (Nat.eqb (timer_id tm) tid)) (timers w)
            = []).
  { intros tid Htid. unfold onlyEffectTimer in Hinv.
    induction (timers w) as [|tm l IH]; [reflexivity|]. cbn.
    assert (timer_id tm = tid) as ->.
    { specialize (Hinv tm (or_introl eq_refl)). congruence. }
    rewrite Nat.eqb_refl. cbn. apply IH. intros x Hx. apply Hinv. now right. }
  unfold commitFilters, filtersEffectCleanup, filtersEffect, Eff.exec,
    Eff.bind, Eff.get.
  destruct (effectTimer w) as [tid|] eqn:Het.
  - unfold clearTimeout, setEffectTimer, setTimeout, Eff.modify, Eff.bind.
    cbn. now rewrite (Hclear tid eq_refl).
  - assert (timers w = []) as Hnil.
    { destruct (timers w) as [|tm l] eqn:Htm; [reflexivity|].
      specialize (Hinv tm). rewrite Htm in Hinv.
      specialize (Hinv (or_introl eq_refl)). congruence. }
    unfold setEffectTimer, setTimeout, Eff.modify, Eff.ret. cbn.
    now rewrite Hnil.
Qed.

Lemma pendingSave_onlyEffectTimer
    (user : option User) (f : Filters) (t : Z) (w : World) :
  Sync.pendingSave user f t w -> onlyEffectTimer w.
Proof.
  intros (tid & Ht & He & _) tm Hin. rewrite Ht in Hin.
  destruct Hin as [<- | []]. exact He.
Qed.

(** The first change of a burst, at time [t]. *)
Lemma changeFilters_arms (user : option User) (f : Filters) (t : Z) (w : World) :
  onlyEffectTimer w -> clock w <= t ->
  Sync.pendingSave user f t (changeFilters user t f w)
  /\ log (changeFilters user t f w) = log (advanceTo t w).
Proof.
  intros Hinv Hclk. unfold changeFilters.
  rewrite (commitFilters_shape user f _ (onlyEffectTimer_advanceTo t w Hinv)).
  rewrite (clock_advanceTo t w Hclk). split; [|reflexivity].
  exists (nextTimerId (advanceTo t w)). cbn. auto.
Qed.

(** Time passing short of the deadline fires nothing. *)
Lemma advanceTo_early
    (user : option User) (f : Filters) (t t' : Z) (w : World) :
  Sync.pendingSave user f t w -> t <= t' -> t' < t + debounceDelay ->
  advanceTo t' w
  = mkWorld (favorites w) (effectTimer w) (timers w) (nextTimerId w)
            t' (service w) (ncalls w) (log w).
Proof.
  intros (tid & Ht & He & Hc) Hle Hlt. unfold advanceTo. rewrite Ht.
  cbn [fireDue deadline].
  replace (t + debounceDelay <=? t') with false
    by (symmetry; apply Z.leb_gt; lia).
  cbn. rewrite Ht, Hc. f_equal. lia.
Qed.

(** A later change within the delay cancels the pending save and arms
    its own; nothing is written. *)
Lemma changeFilters_rearms
    (user : option User) (f f' : Filters) (t t' : Z) (w : World) :
  Sync.pendingSave user f t w -> t <= t' -> t' < t + debounceDelay ->
  Sync.pendingSave user f' t' (changeFilters user t' f' w)
  /\ log (changeFilters user t' f' w) = log w.
Proof.
  intros Hp Hle Hlt.
  pose proof (pendingSave_onlyEffectTimer _ _ _ _ Hp) as Hinv.
  destruct (changeFilters_arms user f' t' w Hinv) as [Ha Hl].
  { destruct Hp as (_ & _ & _ & Hc). lia. }
  split; [exact Ha|]. rewrite Hl.
  now rewrite (advanceTo_early user f t t' w Hp Hle Hlt).
Qed.

(** Once the delay has passed the pending save fires, once. *)
Lemma advanceTo_fires
    (user : option User) (f : Filters) (t T : Z) (w : World) :
  Sync.pendingSave user f t w -> t + debounceDelay <= T ->
  timers (advanceTo T w) = []
  /\ log (advanceTo T w) = log (Eff.exec (saveFilters user f) w).
Proof.
  intros (tid & Ht & He & Hc) Hle. unfold advanceTo. rewrite Ht.
  cbn [fireDue deadline timer_id].
  replace (t + debounceDelay <=? T) with true
    by (symmetry; apply Z.leb_le; lia).
  unfold isPending. rewrite Ht. cbn [existsb timer_id].
  rewrite Nat.eqb_refl. cbn [andb orb].
  unfold fireTimer. rewrite Ht. cbn [filter timer_id callback runCallback].
  rewrite Nat.eqb_refl. cbn [negb].
  match goal with |- context [Eff.exec (saveFilters user f) ?w0] =>
    destruct (saveFilters_frame user f w0) as (_ & _ & Htm & _);
    assert (Hlog : log (Eff.exec (saveFilters user f) w0)
                   = log (Eff.exec (saveFilters user f) w))
  end.
  { unfold saveFilters, Eff.exec. destruct (userId user); [|reflexivity].
    unfold Eff.try_catch, await_call, console_error, emit, Eff.modify.
    cbn. destruct (service w (ncalls w) (SaveFilters s f)); reflexivity. }
  cbn. split; [exact Htm | exact Hlog].
Qed.

(** A burst of changes of any length leaves one pending save, for the
    filters of the last change, and writes nothing meanwhile. *)
Lemma burst_keeps_last (user : option User) (changes : list (Z * Filters)) :
  forall (f : Filters) (t : Z) (w : World),
    Sync.pendingSave user f t w ->
    Sync.quickSuccession t changes ->
    Sync.pendingSave user (snd (last changes (t, f)))
      (fst (last changes (t, f))) (Sync.applyChanges user changes w)
    /\ log (Sync.applyChanges user changes w) = log w.
Proof.
  induction changes as [|[t' f'] rest IH]; intros f t w Hp Hq.
  - cbn. auto.
  - cbn in Hq. destruct Hq as (Hle & Hlt & Hq).
    destruct (changeFilters_rearms user f f' t t' w Hp Hle Hlt) as [Hp' Hl'].
    destruct (IH f' t' _ Hp' Hq) as [Hp'' Hl''].
    cbn [Sync.applyChanges fold_left fst snd].
    change (fold_left _ rest ?x) with (Sync.applyChanges user rest x).
    rewrite Hl'', Hl'. split; [|reflexivity].
    replace (last ((t', f') :: rest) (t, f)) with (last rest (t', f'));
      [exact Hp''|].
    clear. destruct rest as [|c rest]; [reflexivity|].
    cbn [last]. revert c. induction rest as [|d rest IH]; intros c.
    + reflexivity.
    + cbn [last]. cbn [last] in IH. apply IH.
Qed.
End SyncFacts.

Lemma onlyEffectTimer_mounted
    (svc : nat -> DSASheet.ServiceCall -> bool) (user : option User)
    (t0 : Z) (f : Filters) :
  DSASheet.onlyEffectTimer (DSASheet.mounted svc user t0 f).
Proof. intros tm [<- | []]. reflexivity. Qed.

Lemma onlyEffectTimer_changeFilters
    (user : option User) (t : Z) (f : Filters) (w : DSASheet.World) :
  DSASheet.onlyEffectTimer w ->
  DSASheet.onlyEffectTimer (DSASheet.changeFilters user t f w).
Proof.
  intros H. unfold DSASheet.changeFilters.
  rewrite (commitFilters_shape user f _ (onlyEffectTimer_advanceTo t w H)).
  intros tm [<- | []]. reflexivity.
Qed.

(** C2, as the code has it. With a user signed in, three filter changes
    at times [t1 <= t2 <= t3] inside one window of 1000 ms, followed by
    at least 1000 ms without a change, issue exactly one [saveFilters]
    write, and it carries the filter object of the last change: the burst
    itself writes nothing and leaves one pending save (each change having
    cancelled the one before it), which fires once the delay is over. *)
Theorem debounce_three_changes
    (user : option User) (uid : string) (w : DSASheet.World)
    (t1 t2 t3 T : Z) (f1 f2 f3 : Filters) :
  userId user = Some uid ->
  DSASheet.onlyEffectTimer w -> DSASheet.clock w <= t1 ->
  t1 <= t2 -> t2 <= t3 -> t3 < t1 + 1000 -> t3 + 1000 <= T ->
  let before := DSASheet.advanceTo t1 w in
  let after :=
    DSASheet.changeFilters user t3 f3
      (DSASheet.changeFilters user t2 f2
         (DSASheet.changeFilters user t1 f1 w)) in
  DSASheet.log after = DSASheet.log before
  /\ Sync.pendingSave user f3 t3 after
  /\ DSASheet.savedWrites (DSASheet.log (DSASheet.advanceTo T after))
     = (DSASheet.savedWrites (DSASheet.log before) ++ [(uid, f3)])%list
  /\ DSASheet.timers (DSASheet.advanceTo T after) = [].
Proof.
  intros Huid Hinv Hclk H12 H23 H31 HT before after.
  destruct (changeFilters_arms user f1 t1 w Hinv Hclk) as [Hp1 Hl1].
  assert (Hq : Sync.quickSuccession t1 [(t2, f2); (t3, f3)]).
  { cbn. unfold DSASheet.debounceDelay. repeat split; lia. }
  destruct (burst_keeps_last user [(t2, f2); (t3, f3)] f1 t1 _ Hp1 Hq)
    as [Hp3 Hl3].
  cbn in Hp3, Hl3. fold after in Hp3, Hl3.
  assert (Hlog : DSASheet.log after = DSASheet.log before)
    by (rewrite Hl3; exact Hl1).
  destruct (advanceTo_fires user f3 t3 T after Hp3) as [Hnil Hfire].
  { unfold DSASheet.debounceDelay. lia. }
  repeat split; try assumption.
  rewrite Hfire, (saveFilters_signed_in user uid f3 after Huid).
  now rewrite Hlog.
Qed.

Lemma debounce_three_changes_witness :
  DSASheet.savedWrites
    (DSASheet.log
       (DSASheet.advanceTo 1300
          (DSASheet.changeFilters (Some Sample.alice) 300 Sample.easyHardInside
             (DSASheet.changeFilters (Some Sample.alice) 200 Sample.easyHard
                (DSASheet.changeFilters (Some Sample.alice) 100 Sample.easyOnly
                   (DSASheet.mounted Sample.alwaysOk (Some Sample.alice) 0
                      Sample.noFilters))))))
  = [("u-17", Sample.easyHardInside)].
Proof.
  exact (proj1 (proj2 (proj2
    (debounce_three_changes (Some Sample.alice) "u-17"
       (DSASheet.mounted Sample.alwaysOk (Some Sample.alice) 0 Sample.noFilters)
       100 200 300 1300 Sample.easyOnly Sample.easyHard Sample.easyHardInside
       eq_refl
       (onlyEffectTimer_mounted Sample.alwaysOk (Some Sample.alice) 0
          Sample.noFilters)
       ltac:(cbn; lia) ltac:(lia) ltac:(lia) ltac:(lia) ltac:(lia))))).
Defined.

(** C2, as stated, fails: with nobody signed in the timer fires and
    [saveFilters] returns at once, so three changes in a burst issue no
    write at all. *)
Lemma debounce_signed_out_writes_nothing :
  DSASheet.savedWrites
    (DSASheet.log
       (DSASheet.advanceTo 5000
          (DSASheet.changeFilters None 300 Sample.easyHardInside
             (DSASheet.changeFilters None 200 Sample.easyHard
                (DSASheet.changeFilters None 100 Sample.easyOnly
                   (DSASheet.mounted Sample.alwaysOk None 0
                      Sample.noFilters))))))
  = []
  /\ DSASheet.timers
       (DSASheet.advanceTo 5000
          (DSASheet.changeFilters None 300 Sample.easyHardInside
             (DSASheet.changeFilters None 200 Sample.easyHard
                (DSASheet.changeFilters None 100 Sample.easyOnly
                   (DSASheet.mounted Sample.alwaysOk None 0
                      Sample.noFilters)))))
     = [].
Proof. split; reflexivity. Qed.

(** Changes further apart than the delay are each written. *)
Example slow_changes_each_written :
  DSASheet.savedWrites
    (DSASheet.log
       (DSASheet.advanceTo 9000
          (DSASheet.changeFilters (Some Sample.alice) 3000 Sample.easyHard
             (DSASheet.changeFilters (Some Sample.alice) 100 Sample.easyOnly
                (DSASheet.mounted Sample.alwaysOk (Some Sample.alice) 0
                   Sample.noFilters)))))
  = [("u-17", Sample.easyOnly); ("u-17", Sample.easyHard)].
Proof. reflexivity. Qed.

(** ** The filter derivation *)

Lemma filter_twice {A} (p : A -> bool) (l : list A) :
  filter p (filter p l) = filter p l.
Proof.
  induction l as [|a l IH]; [reflexivity|]. cbn [filter].
  destruct (p a) eqn:E; [|exact IH]. cbn [filter]. now rewrite E, IH.
Qed.

(** C4. Filtering is idempotent: deriving with the same filter sets and
    the same search string from an already derived list gives that list. *)
Theorem deriveFiltered_idempotent
    (filters : Filters) (searchQuery : string)
    (catalog : list FilterDerivation.Entry) :
  FilterDerivation.deriveFiltered filters searchQuery
    (FilterDerivation.deriveFiltered filters searchQuery catalog)
  = FilterDerivation.deriveFiltered filters searchQuery catalog.
Proof. unfold FilterDerivation.deriveFiltered. apply filter_twice. Qed.

Example derive_hard_or_easy :
  FilterDerivation.deriveFiltered Sample.easyHard "" Sample.catalog
  = [Sample.arrays; Sample.graphs].
Proof. reflexivity. Qed.

Example derive_search_ignores_case :
  FilterDerivation.deriveFiltered Sample.noFilters "ADO" Sample.catalog
  = [Sample.adobe].
Proof. reflexivity. Qed.

(** C5, as the derivation has it. With the three filter sets empty and
    the search string empty, the derived list is the whole catalog. *)
Theorem deriveFiltered_nothing_selected
    (filters : Filters) (catalog : list FilterDerivation.Entry) :
  difficulty filters = [] -> category filters = [] -> companies filters = [] ->
  FilterDerivation.deriveFiltered filters "" catalog = catalog.
Proof.
  intros Hd Hc Hco. unfold FilterDerivation.deriveFiltered.
  induction catalog as [|e l IH]; [reflexivity|]. cbn [filter].
  unfold FilterDerivation.matchesFilters at 1. rewrite Hd, Hc, Hco. cbn.
  now rewrite IH.
Qed.

Lemma deriveFiltered_nothing_selected_witness :
  FilterDerivation.deriveFiltered Sample.noFilters "" Sample.catalog
  = Sample.catalog.
Proof.
  exact (deriveFiltered_nothing_selected Sample.noFilters Sample.catalog
           eq_refl eq_refl eq_refl).
Defined.

(** C5, as stated, fails: the three sets are empty, yet a search string
    keeps only the entries whose title contains it. *)
Lemma empty_sets_with_search_not_full :
  difficulty Sample.noFilters = []
  /\ category Sample.noFilters = []
  /\ companies Sample.noFilters = []
  /\ FilterDerivation.deriveFiltered Sample.noFilters "graph" Sample.catalog
     = [Sample.graphs]
  /\ FilterDerivation.deriveFiltered Sample.noFilters "graph" Sample.catalog
     <> Sample.catalog.
Proof. repeat split; discriminate. Qed.

(** ** The drop handler of the resume upload *)

Section DropFacts.
Import ResumeUpload.

Lemma drop_signed_out (files : list File) (w : World) : drop None files w = w.
Proof. unfold drop, onDrop, Eff.exec. now destruct files. Qed.

Lemma drop_no_file (user : option User) (w : World) : drop user [] w = w.
Proof. reflexivity. Qed.

Lemma drop_invalid_type (u : User) (file : File) (rest : list File) (w : World) :
  Js.includes validTypes (file_type file) = false ->
  drop (Some u) (file :: rest) w
  = mkWorld (uploadProgress w) (currentFile w) (isProcessing w)
      (nextIntervalId w) (uploadResume w)
      (log w ++ [EToast "Invalid file type"
                   "Please upload a PDF or Word document" VariantDestructive]).
Proof. intros H. unfold drop, onDrop, Eff.exec. now rewrite H. Qed.

Lemma drop_too_large (u : User) (file : File) (rest : list File) (w : World) :
  Js.includes validTypes (file_type file) = true ->
  file_size file > maxFileSize ->
  drop (Some u) (file :: rest) w
  = mkWorld (uploadProgress w) (currentFile w) (isProcessing w)
      (nextIntervalId w) (uploadResume w)
      (log w ++ [EToast "File too large"
                   "Please upload a file smaller than 5MB" VariantDestructive]).
Proof.
  intros H Hsize. unfold drop, onDrop, Eff.exec. rewrite H. cbn [negb].
  replace (file_size file >? maxFileSize) with true
    by (symmetry; apply Z.gtb_lt; lia).
  reflexivity.
Qed.

Lemma uploadCalls_app (l1 l2 : list Event) :
  uploadCalls (l1 ++ l2) = (uploadCalls l1 ++ uploadCalls l2)%list.
Proof. apply filter_app. Qed.
End DropFacts.

(** C6, as the code has it. With a user signed in, a dropped file whose
    MIME type is not one of the three allowed is rejected with the
    "Invalid file type" message, whatever its size, and nothing else is
    done. *)
Theorem disallowed_type_rejected
    (u : User) (file : ResumeUpload.File) (rest : list ResumeUpload.File)
    (w : ResumeUpload.World) :
  Js.includes ResumeUpload.validTypes (ResumeUpload.file_type file) = false ->
  ResumeUpload.drop (Some u) (file :: rest) w
  = ResumeUpload.mkWorld
      (ResumeUpload.uploadProgress w) (ResumeUpload.currentFile w)
      (ResumeUpload.isProcessing w) (ResumeUpload.nextIntervalId w)
      (ResumeUpload.uploadResume w)
      (ResumeUpload.log w
       ++ [ResumeUpload.EToast "Invalid file type"
             "Please upload a PDF or Word document"
             ResumeUpload.VariantDestructive]).
Proof. apply drop_invalid_type. Qed.

Lemma disallowed_type_rejected_witness :
  ResumeUpload.log
    (ResumeUpload.drop (Some Sample.alice) [Sample.png 2048]
       (ResumeUpload.idle Sample.accepting))
  = [ResumeUpload.EToast "Invalid file type"
       "Please upload a PDF or Word document" ResumeUpload.VariantDestructive].
Proof.
  exact (f_equal ResumeUpload.log
           (disallowed_type_rejected Sample.alice (Sample.png 2048) []
              (ResumeUpload.idle Sample.accepting) eq_refl)).
Defined.

(** C6, as stated, fails: with nobody signed in the handler returns
    before it looks at the file, and an "image/png" file gets no message. *)
Lemma png_signed_out_no_message :
  Js.includes ResumeUpload.validTypes
    (ResumeUpload.file_type (Sample.png 2048)) = false
  /\ ResumeUpload.toasts
       (ResumeUpload.log
          (ResumeUpload.drop None [Sample.png 2048]
             (ResumeUpload.idle Sample.accepting)))
     = [].
Proof. split; reflexivity. Qed.

(** C7, as the code has it. With a user signed in, a dropped file of more
    than 5 MiB is rejected with a message, whatever its MIME type ("File
    too large" for an allowed type, "Invalid file type" otherwise), and
    nothing else is done. *)
Theorem oversize_rejected
    (u : User) (file : ResumeUpload.File) (rest : list ResumeUpload.File)
    (w : ResumeUpload.World) :
  ResumeUpload.file_size file > 5 * 1024 * 1024 ->
  ResumeUpload.drop (Some u) (file :: rest) w
  = ResumeUpload.mkWorld
      (ResumeUpload.uploadProgress w) (ResumeUpload.currentFile w)
      (ResumeUpload.isProcessing w) (ResumeUpload.nextIntervalId w)
      (ResumeUpload.uploadResume w)
      (ResumeUpload.log w
       ++ [if Js.includes ResumeUpload.validTypes (ResumeUpload.file_type file)
           then ResumeUpload.EToast "File too large"
                  "Please upload a file smaller than 5MB"
                  ResumeUpload.VariantDestructive
           else ResumeUpload.EToast "Invalid file type"
                  "Please upload a PDF or Word document"
                  ResumeUpload.VariantDestructive]).
Proof.
  intros Hsize.
  destruct (Js.includes ResumeUpload.validTypes (ResumeUpload.file_type file))
    eqn:E.
  - apply drop_too_large; [exact E | exact Hsize].
  - apply drop_invalid_type. exact E.
Qed.

Lemma oversize_rejected_witness :
  ResumeUpload.log
    (ResumeUpload.drop (Some Sample.alice) [Sample.pdf (6 * Sample.MiB)]
       (ResumeUpload.idle Sample.accepting))
  = [ResumeUpload.EToast "File too large"
       "Please upload a file smaller than 5MB" ResumeUpload.VariantDestructive].
Proof.
  exact (f_equal ResumeUpload.log
           (oversize_rejected Sample.alice (Sample.pdf (6 * Sample.MiB)) []
              (ResumeUpload.idle Sample.accepting) eq_refl)).
Defined.

(** C7, as stated, fails: with nobody signed in a 6 MiB file gets no
    message. *)
Lemma oversize_signed_out_no_message :
  ResumeUpload.file_size (Sample.pdf (6 * Sample.MiB)) > 5 * 1024 * 1024
  /\ ResumeUpload.toasts
       (ResumeUpload.log
          (ResumeUpload.drop None [Sample.pdf (6 * Sample.MiB)]
             (ResumeUpload.idle Sample.accepting)))
     = [].
Proof. split; reflexivity. Qed.

(** C8. A dropped file that fails validation (type not allowed, or more
    than 5 MiB) never reaches [uploadResume]: the handler adds no network
    call to the log, signed in or not. *)
Theorem invalid_upload_no_network_call
    (user : option User) (file : ResumeUpload.File)
    (rest : list ResumeUpload.File) (w : ResumeUpload.World) :
  Js.includes ResumeUpload.validTypes (ResumeUpload.file_type file) = false
  \/ ResumeUpload.file_size file > ResumeUpload.maxFileSize ->
  ResumeUpload.uploadCalls (ResumeUpload.log (ResumeUpload.drop user (file :: rest) w))
  = ResumeUpload.uploadCalls (ResumeUpload.log w).
Proof.
  intros Hbad. destruct user as [u|]; [|now rewrite drop_signed_out].
  destruct (Js.includes ResumeUpload.validTypes (ResumeUpload.file_type file))
    eqn:E.
  - destruct Hbad as [Hbad | Hbad]; [discriminate|].
    rewrite (drop_too_large u file rest w E Hbad). cbn [ResumeUpload.log].
    rewrite uploadCalls_app. cbn. apply app_nil_r.
  - rewrite (drop_invalid_type u file rest w E). cbn [ResumeUpload.log].
    rewrite uploadCalls_app. cbn. apply app_nil_r.
Qed.

Lemma invalid_upload_no_network_call_witness :
  ResumeUpload.uploadCalls
    (ResumeUpload.log
       (ResumeUpload.drop (Some Sample.alice) [Sample.png (6 * Sample.MiB)]
          (ResumeUpload.idle Sample.accepting)))
  = [].
Proof.
  exact (invalid_upload_no_network_call (Some Sample.alice)
           (Sample.png (6 * Sample.MiB)) []
           (ResumeUpload.idle Sample.accepting) (or_introl eq_refl)).
Defined.

(** A valid file of a signed-in user does reach the network. *)
Example valid_upload_is_sent :
  ResumeUpload.log
    (ResumeUpload.drop (Some Sample.alice) [Sample.pdf (2 * Sample.MiB)]
       (ResumeUpload.idle Sample.accepting))
  = [ResumeUpload.ESetInterval 0 300;
     ResumeUpload.EUploadResume (Sample.pdf (2 * Sample.MiB));
     ResumeUpload.EClearInterval 0;
     ResumeUpload.EToast "Resume processed successfully"
       "Profile has been automatically updated with extracted data"
       ResumeUpload.VariantDefault;
     ResumeUpload.ESetTimeout 2000].
Proof. reflexivity. Qed.

Example rejected_upload_reports :
  ResumeUpload.log
    (ResumeUpload.drop (Some Sample.alice) [Sample.pdf (5 * Sample.MiB)]
       (ResumeUpload.idle (fun _ => ResumeUpload.Rejects (Some "503"))))
  = [ResumeUpload.ESetInterval 0 300;
     ResumeUpload.EUploadResume (Sample.pdf (5 * Sample.MiB));
     ResumeUpload.EConsoleError "Upload failed:";
     ResumeUpload.EToast "Processing failed" "503"
       ResumeUpload.VariantDestructive].
Proof. reflexivity. Qed.

(** ** More on the filter panel *)

Lemma handleChange_selected
    (dim : FilterPanel.Dimension) (filters : Filters) (x : string)
    (checked : bool) :
  FilterPanel.selected dim (FilterPanel.handleChange dim filters x checked)
  = if checked then Js.appended (FilterPanel.selected dim filters) x
    else Js.without (FilterPanel.selected dim filters) x.
Proof. destruct dim; reflexivity. Qed.

Lemma length_without (xs : list string) (x : string) :
  (List.length (Js.without xs x) <= List.length xs)%nat.
Proof. unfold Js.without. apply filter_length_le. Qed.

(** X1. After a handler of the filter panel has run, the check box it
    belongs to shows what was asked for: its value is among the selected
    ones exactly when [checked] was true. *)
Theorem checkbox_shows_change
    (dim : FilterPanel.Dimension) (filters : Filters) (x : string)
    (checked : bool) :
  Js.includes
    (FilterPanel.selected dim (FilterPanel.handleChange dim filters x checked))
    x
  = checked.
Proof.
  rewrite handleChange_selected. destruct checked.
  - apply includes_appended.
  - apply includes_without.
Qed.

(** X2. Checking a value that was not selected and unchecking it again
    gives back the filter object one started from. *)
Theorem check_then_uncheck
    (dim : FilterPanel.Dimension) (filters : Filters) (x : string) :
  Js.includes (FilterPanel.selected dim filters) x = false ->
  FilterPanel.handleChange dim
    (FilterPanel.handleChange dim filters x true) x false
  = filters.
Proof.
  intros H. destruct filters as [d c co].
  destruct dim; cbn [FilterPanel.selected difficulty category companies] in H;
    unfold FilterPanel.handleChange, handleDifficultyChange,
      handleCategoryChange, handleCompanyChange,
      with_difficulty, with_category, with_companies;
    cbn [difficulty category companies];
    now rewrite (without_appended _ _ H).
Qed.

Lemma check_then_uncheck_witness :
  FilterPanel.handleChange FilterPanel.Category
    (FilterPanel.handleChange FilterPanel.Category Sample.easyHard
       "inside" true) "inside" false
  = Sample.easyHard.
Proof.
  exact (check_then_uncheck FilterPanel.Category Sample.easyHard "inside"
           eq_refl).
Defined.

(** X3. Unchecking removes every occurrence of the value and nothing
    else: afterwards the selected values are those selected before, the
    unchecked one excepted. *)
Theorem uncheck_removes_only_that
    (dim : FilterPanel.Dimension) (filters : Filters) (x y : string) :
  In y (FilterPanel.selected dim
          (FilterPanel.handleChange dim filters x false))
  <-> In y (FilterPanel.selected dim filters) /\ y <> x.
Proof. rewrite handleChange_selected. apply In_without. Qed.

(** X4. Handlers of two different groups of check boxes commute. *)
Theorem handlers_commute
    (dim1 dim2 : FilterPanel.Dimension) (filters : Filters)
    (x y : string) (b1 b2 : bool) :
  dim1 <> dim2 ->
  FilterPanel.handleChange dim1
    (FilterPanel.handleChange dim2 filters y b2) x b1
  = FilterPanel.handleChange dim2
      (FilterPanel.handleChange dim1 filters x b1) y b2.
Proof.
  intros Hne. destruct dim1, dim2; try (now elim Hne); reflexivity.
Qed.

Lemma handlers_commute_witness :
  FilterPanel.handleChange FilterPanel.Difficulty
    (FilterPanel.handleChange FilterPanel.Companies Sample.easyOnly
       "adobe" true) "Easy" false
  = FilterPanel.handleChange FilterPanel.Companies
      (FilterPanel.handleChange FilterPanel.Difficulty Sample.easyOnly
         "Easy" false) "adobe" true.
Proof.
  apply (handlers_commute FilterPanel.Difficulty FilterPanel.Companies).
  discriminate.
Defined.

(** X5. The panel counts as having active filters exactly when the
    number in its badge is not zero, and after "Clear All" it has none. *)
Theorem active_iff_count (filters : Filters) :
  hasActiveFilters filters
  = negb (Nat.eqb (FilterPanel.activeCount filters) 0)
  /\ hasActiveFilters clearAllFilters = false.
Proof.
  split; [|reflexivity].
  destruct filters as [[|d ds] [|c cs] [|co cos]]; try reflexivity;
    unfold hasActiveFilters, FilterPanel.activeCount; cbn;
    rewrite ?Nat.add_succ_r; reflexivity.
Qed.

(** X6. Checking a box raises the number in the badge by one, whether or
    not the value was selected already; unchecking never raises it. *)
Theorem count_after_change
    (dim : FilterPanel.Dimension) (filters : Filters) (x : string) :
  FilterPanel.activeCount (FilterPanel.handleChange dim filters x true)
  = S (FilterPanel.activeCount filters)
  /\ (FilterPanel.activeCount (FilterPanel.handleChange dim filters x false)
      <= FilterPanel.activeCount filters)%nat.
Proof.
  destruct filters as [d c co].
  pose proof (length_without d x). pose proof (length_without c x).
  pose proof (length_without co x).
  destruct dim;
    unfold FilterPanel.activeCount, FilterPanel.handleChange,
      handleDifficultyChange, handleCategoryChange, handleCompanyChange,
      with_difficulty, with_category, with_companies, Js.appended;
    cbn [difficulty category companies];
    rewrite ?List.length_app; cbn [List.length]; split; lia.
Qed.

(** ** The sibling panel RouteFilters *)

(** X7. In [RouteFilters] the panel counts as having active filters
    exactly when the number in its badge is not zero; what "Clear All"
    hands to its two callbacks has no active filter; and its difficulty
    handler leaves the check box showing what was asked for. *)
Theorem route_filters_active
    (filters : RouteFilters.Filters) (showFavoritesOnly : bool)
    (d : string) (checked : bool) :
  RouteFilters.hasActiveFilters filters showFavoritesOnly
  = negb (Nat.eqb (RouteFilters.activeCount filters showFavoritesOnly) 0)
  /\ RouteFilters.hasActiveFilters (fst RouteFilters.clearAllFilters)
       (snd RouteFilters.clearAllFilters) = false
  /\ Js.includes
       (RouteFilters.difficulty
          (RouteFilters.handleDifficultyChange filters d checked)) d
     = checked.
Proof.
  repeat split.
  - destruct filters as [[|x xs]], showFavoritesOnly; reflexivity.
  - unfold RouteFilters.handleDifficultyChange. cbn. destruct checked.
    + apply includes_appended.
    + apply includes_without.
Qed.


(** ** More on the favourites toggle *)

Lemma result_membership (favs : list string) (x y : string) :
  In y (Toggle.result favs x)
  <-> (if String.eqb y x then ~ In x favs else In y favs).
Proof.
  unfold Toggle.result. destruct (Js.includes favs x) eqn:E.
  - apply includes_In in E. rewrite In_without.
    destruct (String.eqb_spec y x) as [->|Hne]; tauto.
  - assert (~ In x favs) as Hnot.
    { intros Hin. apply includes_In in Hin. congruence. }
    unfold Js.appended. rewrite in_app_iff. cbn.
    destruct (String.eqb_spec y x) as [->|Hne]; [tauto|].
    split; [intros [H|[H|[]]]; [exact H | now elim Hne] | tauto].
Qed.

(** X8. A toggle that goes through flips the membership of the toggled
    item and of no other: the item is among the favourites afterwards
    exactly when it was not before, every other id exactly when it was. *)
Theorem toggle_flips_one
    (user : option User) (uid x : string) (w : DSASheet.World) :
  userId user = Some uid ->
  DSASheet.service w (DSASheet.ncalls w)
    (Toggle.call uid (DSASheet.favorites w) x) = true ->
  forall y,
    In y (DSASheet.favorites (DSASheet.toggle user x w))
    <-> (if String.eqb y x then ~ In x (DSASheet.favorites w)
         else In y (DSASheet.favorites w)).
Proof.
  intros Huid Hok y.
  rewrite (toggle_signed_in user uid Huid x w), Hok. cbn.
  apply result_membership.
Qed.

Lemma toggle_flips_one_witness :
  In "graphs"
     (DSASheet.favorites
        (DSASheet.toggle (Some Sample.alice) "arrays"
           (Sample.sheet Sample.alwaysOk ["arrays"; "graphs"; "arrays"])))
  <-> In "graphs" ["arrays"; "graphs"; "arrays"].
Proof.
  exact (toggle_flips_one (Some Sample.alice) "u-17" "arrays"
           (Sample.sheet Sample.alwaysOk ["arrays"; "graphs"; "arrays"])
           eq_refl eq_refl "graphs").
Defined.

Lemma toggle_signed_out_world
    (user : option User) (x : string) (w : DSASheet.World) :
  userId user = None ->
  DSASheet.toggle user x w
  = DSASheet.mkWorld (DSASheet.favorites w) (DSASheet.effectTimer w)
      (DSASheet.timers w) (DSASheet.nextTimerId w) (DSASheet.clock w)
      (DSASheet.service w) (DSASheet.ncalls w)
      (DSASheet.log w
       ++ [DSASheet.EToast DSASheet.ToastError
             "Please sign in to add favorites"]).
Proof.
  intros H. unfold DSASheet.toggle, DSASheet.clickFavorite,
    DSASheet.handleToggleFavorite, Eff.exec, Eff.bind, Eff.get.
  rewrite H. reflexivity.
Qed.

(** X9. With nobody signed in, or a user whose id is the empty string,
    a toggle makes no call and changes nothing: it only asks to sign in. *)
Theorem toggle_signed_out_asks
    (user : option User) (x : string) (w : DSASheet.World) :
  userId user = None ->
  DSASheet.favorites (DSASheet.toggle user x w) = DSASheet.favorites w
  /\ DSASheet.ncalls (DSASheet.toggle user x w) = DSASheet.ncalls w
  /\ DSASheet.log (DSASheet.toggle user x w)
     = (DSASheet.log w
        ++ [DSASheet.EToast DSASheet.ToastError
              "Please sign in to add favorites"])%list.
Proof.
  intros H. rewrite (toggle_signed_out_world user x w H). cbn. auto.
Qed.

Lemma toggle_signed_out_asks_witness :
  DSASheet.log
    (DSASheet.toggle (Some (mkUser "")) "arrays"
       (Sample.sheet Sample.alwaysOk ["graphs"]))
  = [DSASheet.EToast DSASheet.ToastError "Please sign in to add favorites"].
Proof.
  exact (proj2 (proj2
           (toggle_signed_out_asks (Some (mkUser "")) "arrays"
              (Sample.sheet Sample.alwaysOk ["graphs"]) eq_refl))).
Defined.

(** X10. A toggle, whoever is signed in and whatever the collaborator
    answers, makes at most one call and leaves the pending save of the
    filters alone: timers, the effect's timer and the clock are as
    before. *)
Theorem toggle_leaves_sync_alone
    (user : option User) (x : string) (w : DSASheet.World) :
  DSASheet.timers (DSASheet.toggle user x w) = DSASheet.timers w
  /\ DSASheet.effectTimer (DSASheet.toggle user x w) = DSASheet.effectTimer w
  /\ DSASheet.clock (DSASheet.toggle user x w) = DSASheet.clock w
  /\ (DSASheet.ncalls w <= DSASheet.ncalls (DSASheet.toggle user x w)
      <= S (DSASheet.ncalls w))%nat
  /\ DSASheet.savedWrites (DSASheet.log (DSASheet.toggle user x w))
     = DSASheet.savedWrites (DSASheet.log w).
Proof.
  destruct (userId user) as [uid|] eqn:Huid.
  - rewrite (toggle_signed_in user uid Huid x w).
    destruct (DSASheet.service w (DSASheet.ncalls w)
                (Toggle.call uid (DSASheet.favorites w) x));
      cbn; repeat split; try lia;
      rewrite savedWrites_app; unfold Toggle.call;
      destruct (Js.includes (DSASheet.favorites w) x); cbn;
      apply app_nil_r.
  - rewrite (toggle_signed_out_world user x w Huid). cbn.
    repeat split; try lia. rewrite savedWrites_app. cbn. apply app_nil_r.
Qed.

(** ** More on the debounced save *)

Section SyncMoreFacts.
Import DSASheet.

Lemma pendingSave_mounted
    (svc : nat -> ServiceCall -> bool) (user : option User)
    (t0 : Z) (f : Filters) :
  Sync.pendingSave user f t0 (mounted svc user t0 f).
Proof. exists 0%nat. cbn. auto. Qed.

(** The cleanup and the effect write nothing into the log and set no
    timer but the one of the new effect. *)
Lemma commitFilters_quiet (user : option User) (f : Filters) (w : World) :
  let w' := Eff.exec (commitFilters user f) w in
  log w' = log w /\ favorites w' = favorites w
  /\ (forall tm, In tm (timers w') ->
        In tm (timers w) \/ callback tm = SaveFiltersCb user f).
Proof.
  unfold commitFilters, filtersEffectCleanup, filtersEffect, Eff.exec,
    Eff.bind, Eff.get.
  destruct (effectTimer w) as [tid|];
    unfold clearTimeout, setEffectTimer, setTimeout, Eff.modify, Eff.bind,
      Eff.ret; cbn; repeat split; intros tm Hin;
    apply in_app_iff in Hin; destruct Hin as [Hin | [<- | []]]; cbn; auto.
  apply filter_In in Hin. tauto.
Qed.

Lemma fireDue_favorites (t : Z) (due : list Timer) :
  forall w, favorites (fireDue t due w) = favorites w.
Proof.
  induction due as [|tm due IH]; intros w; cbn [fireDue]; [reflexivity|].
  destruct ((deadline tm <=? t) && isPending (timer_id tm) w); [|apply IH].
  rewrite IH. unfold fireTimer. destruct (callback tm) as [user f].
  cbn [runCallback].
  match goal with |- context [Eff.exec _ ?w0] =>
    destruct (saveFilters_frame user f w0) as (Hf & _) end.
  now rewrite Hf.
Qed.

(** With only signed-out callbacks among the timers, firing them
    writes nothing. *)
Lemma fireDue_signed_out (t : Z) (due : list Timer) :
  forall w,
    (forall tm, In tm due -> SyncMore.signedOutCallback (callback tm)) ->
    log (fireDue t due w) = log w.
Proof.
  induction due as [|tm due IH]; intros w Hdue; cbn [fireDue]; [reflexivity|].
  assert (Hrest : forall x, In x due ->
            SyncMore.signedOutCallback (callback x))
    by (intros x Hx; apply Hdue; now right).
  destruct ((deadline tm <=? t) && isPending (timer_id tm) w);
    [|now apply IH].
  rewrite (IH _ Hrest). unfold fireTimer.
  specialize (Hdue tm (or_introl eq_refl)).
  destruct (callback tm) as [user f]. cbn in Hdue. cbn [runCallback].
  now rewrite saveFilters_signed_out.
Qed.

Lemma advanceTo_signed_out (t : Z) (w : World) :
  SyncMore.allSignedOut w ->
  log (advanceTo t w) = log w /\ SyncMore.allSignedOut (advanceTo t w).
Proof.
  intros H. unfold advanceTo. cbn [log]. split.
  - now apply fireDue_signed_out.
  - intros tm Hin. cbn in Hin.
    destruct (fireDue_frame t (timers w) w) as (Hsub & _). auto.
Qed.

Lemma changeFilters_signed_out
    (user : option User) (t : Z) (f : Filters) (w : World) :
  userId user = None -> SyncMore.allSignedOut w ->
  log (changeFilters user t f w) = log w
  /\ SyncMore.allSignedOut (changeFilters user t f w).
Proof.
  intros Hu H. destruct (advanceTo_signed_out t w H) as [Hl Ha].
  destruct (commitFilters_quiet user f (advanceTo t w)) as (Hl' & _ & Ht').
  unfold changeFilters. split; [congruence|].
  intros tm Hin. destruct (Ht' tm Hin) as [Hold | Hnew]; [auto|].
  rewrite Hnew. exact Hu.
Qed.
End SyncMoreFacts.

(** X11. Mounting the sheet is enough for a write: with a user signed in
    and no filter change at all, the initial filter object is saved once
    the debounce delay after the mount is over. *)
Theorem mount_alone_saves
    (svc : nat -> DSASheet.ServiceCall -> bool) (user : option User)
    (uid : string) (t0 T : Z) (f : Filters) :
  userId user = Some uid -> t0 + 1000 <= T ->
  DSASheet.savedWrites
    (DSASheet.log (DSASheet.advanceTo T (DSASheet.mounted svc user t0 f)))
  = [(uid, f)]
  /\ DSASheet.timers (DSASheet.advanceTo T (DSASheet.mounted svc user t0 f))
     = [].
Proof.
  intros Huid HT.
  destruct (advanceTo_fires user f t0 T _ (pendingSave_mounted svc user t0 f))
    as [Hnil Hlog]; [unfold DSASheet.debounceDelay; lia|].
  split; [|exact Hnil].
  rewrite Hlog, (saveFilters_signed_in user uid f _ Huid). reflexivity.
Qed.

Lemma mount_alone_saves_witness :
  DSASheet.savedWrites
    (DSASheet.log
       (DSASheet.advanceTo 1000
          (DSASheet.mounted Sample.alwaysOk (Some Sample.alice) 0
             Sample.noFilters)))
  = [("u-17", Sample.noFilters)].
Proof.
  exact (proj1 (mount_alone_saves Sample.alwaysOk (Some Sample.alice) "u-17"
                  0 1000 Sample.noFilters eq_refl ltac:(lia))).
Defined.

(** X12. A burst of filter changes of any length, each less than the
    debounce delay after the one before it, is saved as one write, of the
    filter object of the last change, once the delay after the last
    change is over (user signed in). *)
Theorem debounce_any_burst
    (user : option User) (uid : string) (w : DSASheet.World)
    (t1 : Z) (f1 : Filters) (rest : list (Z * Filters)) (T : Z) :
  userId user = Some uid ->
  DSASheet.onlyEffectTimer w -> DSASheet.clock w <= t1 ->
  Sync.quickSuccession t1 rest ->
  fst (last rest (t1, f1)) + 1000 <= T ->
  DSASheet.savedWrites
    (DSASheet.log
       (DSASheet.advanceTo T (Sync.applyChanges user ((t1, f1) :: rest) w)))
  = (DSASheet.savedWrites (DSASheet.log (DSASheet.advanceTo t1 w))
     ++ [(uid, snd (last rest (t1, f1)))])%list.
Proof.
  intros Huid Hinv Hclk Hq HT.
  destruct (changeFilters_arms user f1 t1 w Hinv Hclk) as [Hp1 Hl1].
  destruct (burst_keeps_last user rest f1 t1 _ Hp1 Hq) as [Hp Hl].
  cbn [Sync.applyChanges fold_left fst snd].
  change (fold_left _ rest ?x) with (Sync.applyChanges user rest x).
  destruct (advanceTo_fires user _ _ T _ Hp) as [_ Hfire];
    [unfold DSASheet.debounceDelay; lia|].
  rewrite Hfire, (saveFilters_signed_in user uid _ _ Huid), Hl, Hl1.
  reflexivity.
Qed.

Lemma debounce_any_burst_witness :
  DSASheet.savedWrites
    (DSASheet.log
       (DSASheet.advanceTo 5000
          (Sync.applyChanges (Some Sample.alice)
             [(100, Sample.easyOnly); (900, Sample.easyHard);
              (1700, Sample.easyHardInside); (2500, Sample.easyOnly);
              (3300, Sample.noFilters)]
             (DSASheet.mounted Sample.alwaysOk (Some Sample.alice) 0
                Sample.noFilters))))
  = [("u-17", Sample.noFilters)].
Proof.
  exact (debounce_any_burst (Some Sample.alice) "u-17"
           (DSASheet.mounted Sample.alwaysOk (Some Sample.alice) 0
              Sample.noFilters)
           100 Sample.easyOnly
           [(900, Sample.easyHard); (1700, Sample.easyHardInside);
            (2500, Sample.easyOnly); (3300, Sample.noFilters)] 5000
           eq_refl
           (onlyEffectTimer_mounted Sample.alwaysOk (Some Sample.alice) 0
              Sample.noFilters)
           ltac:(cbn; lia)
           ltac:(cbn; unfold DSASheet.debounceDelay; repeat split; lia)
           ltac:(cbn; lia)).
Defined.

(** X13. A change that comes a full debounce delay or more after the
    previous one does not cancel it: the previous filter object has been
    written by then, and the new one is pending (user signed in). *)
Theorem slow_change_is_not_cancelled
    (user : option User) (uid : string) (w : DSASheet.World)
    (t t' : Z) (f f' : Filters) :
  userId user = Some uid ->
  Sync.pendingSave user f t w -> t + 1000 <= t' ->
  DSASheet.savedWrites (DSASheet.log (DSASheet.changeFilters user t' f' w))
  = (DSASheet.savedWrites (DSASheet.log w) ++ [(uid, f)])%list
  /\ Sync.pendingSave user f' t' (DSASheet.changeFilters user t' f' w).
Proof.
  intros Huid Hp Hle.
  pose proof (pendingSave_onlyEffectTimer _ _ _ _ Hp) as Hinv.
  destruct (changeFilters_arms user f' t' w Hinv) as [Ha Hl].
  { destruct Hp as (_ & _ & _ & Hc). lia. }
  destruct (advanceTo_fires user f t t' w Hp) as [_ Hfire];
    [unfold DSASheet.debounceDelay; lia|].
  split; [|exact Ha].
  now rewrite Hl, Hfire, (saveFilters_signed_in user uid f w Huid).
Qed.

Lemma slow_change_is_not_cancelled_witness :
  DSASheet.savedWrites
    (DSASheet.log
       (DSASheet.changeFilters (Some Sample.alice) 1000 Sample.easyOnly
          (DSASheet.mounted Sample.alwaysOk (Some Sample.alice) 0
             Sample.noFilters)))
  = [("u-17", Sample.noFilters)].
Proof.
  exact (proj1 (slow_change_is_not_cancelled (Some Sample.alice) "u-17"
                  (DSASheet.mounted Sample.alwaysOk (Some Sample.alice) 0
                     Sample.noFilters)
                  0 1000 Sample.noFilters Sample.easyOnly eq_refl
                  (pendingSave_mounted Sample.alwaysOk (Some Sample.alice) 0
                     Sample.noFilters)
                  ltac:(lia))).
Defined.

(** X14. With nobody signed in nothing is ever written: after the mount,
    any filter changes at any times and any wait leave the log without a
    collaborator call. *)
Theorem signed_out_never_saves
    (svc : nat -> DSASheet.ServiceCall -> bool) (user : option User)
    (t0 : Z) (f : Filters) (changes : list (Z * Filters)) (T : Z) :
  userId user = None ->
  DSASheet.log
    (DSASheet.advanceTo T
       (Sync.applyChanges user changes (DSASheet.mounted svc user t0 f)))
  = [].
Proof.
  intros Hu.
  assert (Hgen : forall w, SyncMore.allSignedOut w ->
            DSASheet.log (Sync.applyChanges user changes w) = DSASheet.log w
            /\ SyncMore.allSignedOut (Sync.applyChanges user changes w)).
  { induction changes as [|[t' f'] rest IH]; intros w Hw; [now split|].
    cbn [Sync.applyChanges fold_left fst snd].
    change (fold_left _ rest ?x) with (Sync.applyChanges user rest x).
    destruct (changeFilters_signed_out user t' f' w Hu Hw) as [Hl Ha].
    destruct (IH _ Ha) as [Hl' Ha']. split; [congruence | exact Ha']. }
  assert (Hm : SyncMore.allSignedOut (DSASheet.mounted svc user t0 f)).
  { intros tm [<- | []]. exact Hu. }
  destruct (Hgen _ Hm) as [Hl Ha].
  destruct (advanceTo_signed_out T _ Ha) as [Hl' _].
  rewrite Hl', Hl. reflexivity.
Qed.

Lemma signed_out_never_saves_witness :
  DSASheet.log
    (DSASheet.advanceTo 90000
       (Sync.applyChanges None
          [(100, Sample.easyOnly); (5000, Sample.easyHard)]
          (DSASheet.mounted Sample.alwaysOk None 0 Sample.noFilters)))
  = [].
Proof.
  exact (signed_out_never_saves Sample.alwaysOk None 0 Sample.noFilters
           [(100, Sample.easyOnly); (5000, Sample.easyHard)] 90000 eq_refl).
Defined.

(** X15. A save the collaborator rejects is not tried again and the user
    is not told: the failure goes to the console, no timer is left, and
    more waiting adds nothing. *)
Theorem failed_save_is_dropped
    (user : option User) (uid : string) (w : DSASheet.World)
    (t T T' : Z) (f : Filters) :
  userId user = Some uid ->
  Sync.pendingSave user f t w -> t + 1000 <= T ->
  DSASheet.service w (DSASheet.ncalls w) (DSASheet.SaveFilters uid f) = false ->
  DSASheet.log (DSASheet.advanceTo T w)
  = (DSASheet.log w
     ++ [DSASheet.ECall (DSASheet.SaveFilters uid f);
         DSASheet.EConsoleError "Error saving filters:"])%list
  /\ DSASheet.timers (DSASheet.advanceTo T w) = []
  /\ DSASheet.log (DSASheet.advanceTo T' (DSASheet.advanceTo T w))
     = DSASheet.log (DSASheet.advanceTo T w).
Proof.
  intros Huid Hp HT Hfail.
  destruct (advanceTo_fires user f t T w Hp) as [Hnil Hlog];
    [unfold DSASheet.debounceDelay; lia|].
  repeat split.
  - rewrite Hlog. unfold DSASheet.saveFilters, Eff.exec. rewrite Huid.
    unfold Eff.try_catch, DSASheet.await_call, DSASheet.console_error,
      DSASheet.emit, Eff.modify. rewrite Hfail. cbn.
    now rewrite <- app_assoc.
  - exact Hnil.
  - unfold DSASheet.advanceTo at 1. rewrite Hnil. reflexivity.
Qed.

Lemma failed_save_is_dropped_witness :
  DSASheet.log
    (DSASheet.advanceTo 2000
       (DSASheet.mounted Sample.alwaysDown (Some Sample.alice) 0
          Sample.easyOnly))
  = [DSASheet.ECall (DSASheet.SaveFilters "u-17" Sample.easyOnly);
     DSASheet.EConsoleError "Error saving filters:"].
Proof.
  exact (proj1 (failed_save_is_dropped (Some Sample.alice) "u-17"
                  (DSASheet.mounted Sample.alwaysDown (Some Sample.alice) 0
                     Sample.easyOnly)
                  0 2000 3000 Sample.easyOnly eq_refl
                  (pendingSave_mounted Sample.alwaysDown (Some Sample.alice) 0
                     Sample.easyOnly)
                  ltac:(lia) eq_refl)).
Defined.

(** X16. Saving the filters never touches the favourites: neither a
    filter change nor the passing of time (with whatever timers fire)
    changes the favourites array. *)
Theorem sync_keeps_favorites
    (user : option User) (t : Z) (f : Filters) (w : DSASheet.World) :
  DSASheet.favorites (DSASheet.advanceTo t w) = DSASheet.favorites w
  /\ DSASheet.favorites (DSASheet.changeFilters user t f w)
     = DSASheet.favorites w.
Proof.
  assert (Ha : DSASheet.favorites (DSASheet.advanceTo t w)
               = DSASheet.favorites w).
  { unfold DSASheet.advanceTo. cbn. apply fireDue_favorites. }
  split; [exact Ha|].
  unfold DSASheet.changeFilters.
  destruct (commitFilters_quiet user f (DSASheet.advanceTo t w))
    as (_ & Hf & _).
  now rewrite Hf.
Qed.

(** ** Loading the preferences *)

Section PreferencesFacts.
Import Preferences.

(** What a load does for a signed-in user, by the two answers. *)
Lemma load_signed_in (user : option User) (uid : string) (w : World) :
  userId user = Some uid ->
  load user w =
  match getFilters (service w) uid with
  | Rejected =>
    mkWorld (filters w) (favorites w) (service w)
      (log w ++ [EGetFilters uid;
                 EConsoleError "Error loading user preferences:"])
  | Resolved saved =>
    let f := match saved with Some s => s | None => filters w end in
    match getFavorites (service w) uid with
    | Rejected =>
      mkWorld f (favorites w) (service w)
        (log w ++ [EGetFilters uid; EGetFavorites uid;
                   EConsoleError "Error loading user preferences:"])
    | Resolved favs =>
      mkWorld f favs (service w)
        (log w ++ [EGetFilters uid; EGetFavorites uid])
    end
  end.
Proof.
  intros H. unfold load, loadUserPreferences, Eff.exec. rewrite H.
  unfold Eff.try_catch, Eff.bind, await_getFilters, await_getFavorites,
    setFilters, setFavorites, emit, Eff.modify, Eff.get, Eff.ret, Eff.throw,
    Eff.bind.
  cbn. destruct (getFilters (service w) uid) as [[saved|]|]; cbn;
    try (destruct (getFavorites (service w) uid); cbn);
    repeat rewrite <- app_assoc; reflexivity.
Qed.
End PreferencesFacts.

(** X17. When reading the saved filters fails, the favourites are not
    even asked for: filters and favourites stay as they were and the
    failure goes to the console. *)
Theorem load_filters_failure_skips_favorites
    (user : option User) (uid : string) (w : Preferences.World) :
  userId user = Some uid ->
  Preferences.getFilters (Preferences.service w) uid = Preferences.Rejected ->
  Preferences.load user w
  = Preferences.mkWorld (Preferences.filters w) (Preferences.favorites w)
      (Preferences.service w)
      (Preferences.log w
       ++ [Preferences.EGetFilters uid;
           Preferences.EConsoleError "Error loading user preferences:"]).
Proof.
  intros Huid Hrej. now rewrite (load_signed_in user uid w Huid), Hrej.
Qed.

Lemma load_filters_failure_skips_favorites_witness :
  Preferences.favorites
    (Preferences.load (Some Sample.alice)
       (Preferences.mkWorld Sample.easyOnly ["arrays"]
          (Preferences.mkService
             (fun _ => Preferences.Rejected)
             (fun _ => Preferences.Resolved ["graphs"]))
          []))
  = ["arrays"].
Proof.
  exact (f_equal Preferences.favorites
           (load_filters_failure_skips_favorites (Some Sample.alice) "u-17"
              (Preferences.mkWorld Sample.easyOnly ["arrays"]
                 (Preferences.mkService
                    (fun _ => Preferences.Rejected)
                    (fun _ => Preferences.Resolved ["graphs"]))
                 [])
              eq_refl eq_refl)).
Defined.

(** X18. When both reads succeed, the favourites become the stored list
    (replacing the local one, not merged with it), and the filters become
    the stored filter object if there is one and stay as they are if
    there is none. *)
Theorem load_replaces_state
    (user : option User) (uid : string) (w : Preferences.World)
    (saved : option Filters) (favs : list string) :
  userId user = Some uid ->
  Preferences.getFilters (Preferences.service w) uid
  = Preferences.Resolved saved ->
  Preferences.getFavorites (Preferences.service w) uid
  = Preferences.Resolved favs ->
  Preferences.favorites (Preferences.load user w) = favs
  /\ Preferences.filters (Preferences.load user w)
     = match saved with
       | Some s => s
       | None => Preferences.filters w
       end
  /\ Preferences.log (Preferences.load user w)
     = (Preferences.log w
        ++ [Preferences.EGetFilters uid; Preferences.EGetFavorites uid])%list.
Proof.
  intros Huid Hf Hfav.
  rewrite (load_signed_in user uid w Huid), Hf. cbn. rewrite Hfav. cbn. auto.
Qed.

Lemma load_replaces_state_witness :
  Preferences.filters
    (Preferences.load (Some Sample.alice)
       (Preferences.mkWorld Sample.easyOnly ["arrays"]
          (Preferences.mkService
             (fun _ => Preferences.Resolved None)
             (fun _ => Preferences.Resolved ["graphs"]))
          []))
  = Sample.easyOnly.
Proof.
  exact (proj1 (proj2
    (load_replaces_state (Some Sample.alice) "u-17"
       (Preferences.mkWorld Sample.easyOnly ["arrays"]
          (Preferences.mkService
             (fun _ => Preferences.Resolved None)
             (fun _ => Preferences.Resolved ["graphs"]))
          [])
       None ["graphs"] eq_refl eq_refl eq_refl))).
Defined.

(** X19. A load can stop half way: when the filters were read and the
    read of the favourites fails, the stored filters are already in
    place and the favourites are the old ones. *)
Theorem load_favorites_failure_keeps_filters
    (user : option User) (uid : string) (w : Preferences.World)
    (saved : Filters) :
  userId user = Some uid ->
  Preferences.getFilters (Preferences.service w) uid
  = Preferences.Resolved (Some saved) ->
  Preferences.getFavorites (Preferences.service w) uid
  = Preferences.Rejected ->
  Preferences.filters (Preferences.load user w) = saved
  /\ Preferences.favorites (Preferences.load user w)
     = Preferences.favorites w
  /\ Preferences.log (Preferences.load user w)
     = (Preferences.log w
        ++ [Preferences.EGetFilters uid; Preferences.EGetFavorites uid;
            Preferences.EConsoleError "Error loading user preferences:"])%list.
Proof.
  intros Huid Hf Hfav.
  rewrite (load_signed_in user uid w Huid), Hf. cbn. rewrite Hfav. cbn. auto.
Qed.

Lemma load_favorites_failure_keeps_filters_witness :
  Preferences.filters
    (Preferences.load (Some Sample.alice)
       (Preferences.mkWorld Sample.noFilters ["arrays"]
          (Preferences.mkService
             (fun _ => Preferences.Resolved (Some Sample.easyHard))
             (fun _ => Preferences.Rejected))
          []))
  = Sample.easyHard.
Proof.
  exact (proj1
    (load_favorites_failure_keeps_filters (Some Sample.alice) "u-17"
       (Preferences.mkWorld Sample.noFilters ["arrays"]
          (Preferences.mkService
             (fun _ => Preferences.Resolved (Some Sample.easyHard))
             (fun _ => Preferences.Rejected))
          [])
       Sample.easyHard eq_refl eq_refl eq_refl)).
Defined.

(** X20. Loading again changes nothing: for any user and any answers of
    the collaborator, a second load leaves the filters and the favourites
    the first one left. *)
Theorem load_twice
    (user : option User) (w : Preferences.World) :
  Preferences.filters (Preferences.load user (Preferences.load user w))
  = Preferences.filters (Preferences.load user w)
  /\ Preferences.favorites (Preferences.load user (Preferences.load user w))
     = Preferences.favorites (Preferences.load user w).
Proof.
  destruct (userId user) as [uid|] eqn:Huid.
  - rewrite (load_signed_in user uid (Preferences.load user w) Huid).
    rewrite (load_signed_in user uid w Huid).
    destruct (Preferences.getFilters (Preferences.service w) uid)
      as [[saved|]|] eqn:Hf; cbn;
      try (destruct (Preferences.getFavorites (Preferences.service w) uid)
             eqn:Hfav; cbn);
      rewrite ?Hf; cbn; rewrite ?Hfav; cbn;
      repeat split; reflexivity.
  - assert (Hw : forall w0, Preferences.load user w0 = w0).
    { intros w0. unfold Preferences.load, Preferences.loadUserPreferences,
        Eff.exec. now rewrite Huid. }
    rewrite !Hw. auto.
Qed.


(** ** What the sheet renders *)

Section SheetViewFacts.
Import SheetView.

Lemma badgeTotal_nonzero (badges : list (nat * string)) :
  badgeTotal (filter (fun badge => negb (Nat.eqb (fst badge) 0)) badges)
  = badgeTotal badges.
Proof.
  unfold badgeTotal.
  induction badges as [|[n d] l IH]; [reflexivity|]. cbn [filter fst].
  destruct n as [|n]; cbn [Nat.eqb negb fold_right fst]; now rewrite IH.
Qed.

Lemma count_three (problems : list Problem) :
  (countDifficulty problems "Easy" + countDifficulty problems "Medium"
   + countDifficulty problems "Hard")%nat
  = List.length (filter isListedDifficulty problems).
Proof.
  unfold countDifficulty.
  induction problems as [|p l IH]; [reflexivity|]. cbn [filter].
  unfold isListedDifficulty at 1. unfold Js.includes. cbn [existsb].
  generalize (problem_difficulty p). intros d.
  destruct (String.eqb_spec d "Easy") as [->|H1];
    [cbn [String.eqb Ascii.eqb Bool.eqb andb orb List.length]; lia|].
  destruct (String.eqb_spec d "Medium") as [->|H2];
    [cbn [String.eqb Ascii.eqb Bool.eqb andb orb List.length]; lia|].
  destruct (String.eqb_spec d "Hard") as [->|H3];
    [cbn [String.eqb Ascii.eqb Bool.eqb andb orb List.length]; lia|].
  cbn [orb]. exact IH.
Qed.
End SheetViewFacts.

(** X21. With no difficulty filter set, the counts on the difficulty
    badges of a company card add up to the number of its problems that
    are Easy, Medium or Hard, and no badge shows a zero. *)
Theorem breakdown_adds_up
    (filters : Filters) (problems : list SheetView.Problem) :
  difficulty filters = [] ->
  SheetView.badgeTotal (SheetView.difficultyBreakdown filters problems)
  = List.length (filter SheetView.isListedDifficulty problems)
  /\ forall badge,
       In badge (SheetView.difficultyBreakdown filters problems) ->
       fst badge <> 0%nat.
Proof.
  intros Hd. unfold SheetView.difficultyBreakdown. rewrite Hd.
  cbn [Js.isEmpty]. split.
  - rewrite badgeTotal_nonzero. cbn [map SheetView.badgeTotal fold_right fst].
    rewrite <- count_three. lia.
  - intros badge Hin. apply filter_In in Hin. destruct Hin as [_ Hnz].
    apply negb_true_iff, Nat.eqb_neq in Hnz. exact Hnz.
Qed.

Lemma breakdown_adds_up_witness :
  SheetView.badgeTotal
    (SheetView.difficultyBreakdown Sample.noFilters
       [SheetView.mkProblem "Easy" true; SheetView.mkProblem "Hard" false;
        SheetView.mkProblem "Easy" false; SheetView.mkProblem "Expert" true])
  = 3%nat.
Proof.
  exact (proj1 (breakdown_adds_up Sample.noFilters
           [SheetView.mkProblem "Easy" true; SheetView.mkProblem "Hard" false;
            SheetView.mkProblem "Easy" false; SheetView.mkProblem "Expert" true]
           eq_refl)).
Defined.

(** X22. The statistics card says "Filtered" only when the panel has
    active filters, and when the panel has some, the card says so on the
    topics tab or on the companies tab (not always on both: a company
    filter does not show on the topics tab). *)
Theorem filtered_label_agrees (activeTab : string) (filters : Filters) :
  implb (SheetView.showsFiltered activeTab filters) (hasActiveFilters filters)
  = true
  /\ hasActiveFilters filters
     = SheetView.showsFiltered "topics" filters
       || SheetView.showsFiltered "companies" filters.
Proof.
  unfold SheetView.showsFiltered, hasActiveFilters.
  destruct filters as [[|d ds] [|c cs] [|co cos]];
    destruct (String.eqb activeTab "topics"); split; reflexivity.
Qed.

(** X23. The number of solved problems on a company card never exceeds
    the number of problems shown, and equals it exactly when every shown
    problem is completed. *)
Theorem solved_at_most_shown (filteredProblems : list SheetView.Problem) :
  (SheetView.solvedCount filteredProblems <= List.length filteredProblems)%nat
  /\ (SheetView.solvedCount filteredProblems = List.length filteredProblems
      <-> forall p, In p filteredProblems -> SheetView.completed p = true).
Proof.
  unfold SheetView.solvedCount.
  induction filteredProblems as [|p l [IHle IHiff]]; cbn [filter List.length].
  - split; [lia|]. split; [intros _ p [] | reflexivity].
  - destruct (SheetView.completed p) eqn:E; cbn [List.length].
    + split; [lia|]. split.
      * intros H q [<-|Hq]; [exact E|]. apply IHiff; [lia | exact Hq].
      * intros H. f_equal. apply IHiff. intros q Hq. apply H. now right.
    + split; [lia|]. split.
      * intros H. lia.
      * intros H. specialize (H p (or_introl eq_refl)). congruence.
Qed.

(** ** More on the drop handler *)

Section DropMoreFacts.
Import ResumeUpload.

(** What a drop does once the file has passed both checks. *)
Lemma drop_valid (u : User) (file : File) (rest : list File) (w : World) :
  Js.includes validTypes (file_type file) = true ->
  file_size file <= maxFileSize ->
  drop (Some u) (file :: rest) w =
  match uploadResume w file with
  | Resolves =>
    mkWorld 100 (Some file) true (S (nextIntervalId w)) (uploadResume w)
      (log w ++ [ESetInterval (nextIntervalId w) 300;
                 EUploadResume file;
                 EClearInterval (nextIntervalId w);
                 EToast "Resume processed successfully"
                   "Profile has been automatically updated with extracted data"
                   VariantDefault;
                 ESetTimeout 2000])
  | Rejects message =>
    mkWorld 0 None false (S (nextIntervalId w)) (uploadResume w)
      (log w ++ [ESetInterval (nextIntervalId w) 300;
                 EUploadResume file;
                 EConsoleError "Upload failed:";
                 EToast "Processing failed"
                   (match message with
                    | Some m => m
                    | None => "Please try again"
                    end)
                   VariantDestructive])
  end.
Proof.
  intros Htype Hsize. unfold drop, onDrop, Eff.exec. rewrite Htype.
  cbn [negb].
  replace (file_size file >? maxFileSize) with false
    by (symmetry; rewrite Z.gtb_ltb; apply Z.ltb_ge; lia).
  unfold Eff.try_catch, Eff.bind, await_uploadResume, setCurrentFile,
    setIsProcessing, setUploadProgress, setInterval, clearInterval, toast,
    emit, Eff.modify, Eff.get, Eff.ret, Eff.throw, Eff.bind.
  cbn. destruct (uploadResume w file) as [|message]; cbn;
    repeat rewrite <- app_assoc; reflexivity.
Qed.

Lemma toasts_app (l1 l2 : list Event) :
  toasts (l1 ++ l2) = (toasts l1 ++ toasts l2)%list.
Proof. apply filter_app. Qed.
End DropMoreFacts.

(** X24. A dropped file is sent to [uploadResume] exactly when a user is
    signed in, its MIME type is one of the three allowed and its size is
    at most 5 MiB (a file of exactly 5 MiB passes); then it is sent once. *)
Theorem upload_sent_iff
    (user : option User) (file : ResumeUpload.File)
    (rest : list ResumeUpload.File) (w : ResumeUpload.World) :
  ResumeUpload.uploadCalls
    (ResumeUpload.log (ResumeUpload.drop user (file :: rest) w))
  = (ResumeUpload.uploadCalls (ResumeUpload.log w)
     ++ [ResumeUpload.EUploadResume file])%list
  <-> (user <> None
       /\ Js.includes ResumeUpload.validTypes (ResumeUpload.file_type file)
          = true
       /\ ResumeUpload.file_size file <= 5 * 1024 * 1024).
Proof.
  assert (Hno : forall l : list ResumeUpload.Event,
            l <> (l ++ [ResumeUpload.EUploadResume file])%list).
  { intros l H. apply (f_equal (@List.length _)) in H.
    rewrite List.length_app in H. cbn in H. lia. }
  destruct user as [u|].
  2: { rewrite drop_signed_out. split; [intros H; now elim (Hno _ H)|].
       intros [H _]. now elim H. }
  destruct (Js.includes ResumeUpload.validTypes (ResumeUpload.file_type file))
    eqn:Etype.
  2: { rewrite (drop_invalid_type u file rest w Etype).
       cbn [ResumeUpload.log]. rewrite uploadCalls_app. cbn.
       rewrite app_nil_r. split; [intros H; now elim (Hno _ H)|].
       intros (_ & H & _). discriminate. }
  destruct (Z_le_gt_dec (ResumeUpload.file_size file) ResumeUpload.maxFileSize)
    as [Hle | Hgt].
  - rewrite (drop_valid u file rest w Etype Hle).
    split; [intros _; repeat split; [discriminate | exact Hle]|]. intros _.
    destruct (ResumeUpload.uploadResume w file); cbn [ResumeUpload.log];
      rewrite uploadCalls_app; reflexivity.
  - rewrite (drop_too_large u file rest w Etype Hgt).
    cbn [ResumeUpload.log]. rewrite uploadCalls_app. cbn.
    rewrite app_nil_r. split; [intros H; now elim (Hno _ H)|].
    intros (_ & _ & H). unfold ResumeUpload.maxFileSize in Hgt. lia.
Qed.

(** X25. When [uploadResume] resolves for an accepted file, the card
    ends at 100 percent with the file as current file and still marked as
    processing (the reset is left to a 2 s timer); the progress interval
    is cleared and one success message is shown. *)
Theorem upload_success
    (u : User) (file : ResumeUpload.File) (rest : list ResumeUpload.File)
    (w : ResumeUpload.World) :
  Js.includes ResumeUpload.validTypes (ResumeUpload.file_type file) = true ->
  ResumeUpload.file_size file <= 5 * 1024 * 1024 ->
  ResumeUpload.uploadResume w file = ResumeUpload.Resolves ->
  ResumeUpload.drop (Some u) (file :: rest) w
  = ResumeUpload.mkWorld 100 (Some file) true
      (S (ResumeUpload.nextIntervalId w)) (ResumeUpload.uploadResume w)
      (ResumeUpload.log w
       ++ [ResumeUpload.ESetInterval (ResumeUpload.nextIntervalId w) 300;
           ResumeUpload.EUploadResume file;
           ResumeUpload.EClearInterval (ResumeUpload.nextIntervalId w);
           ResumeUpload.EToast "Resume processed successfully"
             "Profile has been automatically updated with extracted data"
             ResumeUpload.VariantDefault;
           ResumeUpload.ESetTimeout 2000]).
Proof.
  intros Htype Hsize Hres.
  rewrite (drop_valid u file rest w Htype Hsize), Hres. reflexivity.
Qed.

Lemma upload_success_witness :
  ResumeUpload.uploadProgress
    (ResumeUpload.drop (Some Sample.alice) [Sample.pdf (5 * Sample.MiB)]
       (ResumeUpload.idle Sample.accepting))
  = 100.
Proof.
  exact (f_equal ResumeUpload.uploadProgress
           (upload_success Sample.alice (Sample.pdf (5 * Sample.MiB)) []
              (ResumeUpload.idle Sample.accepting) eq_refl
              ltac:(cbn; lia) eq_refl)).
Defined.

(** X26. When [uploadResume] rejects for an accepted file, the card is
    reset (progress 0, no current file, not processing), the message
    shown is the error's own message, or "Please try again" when the
    rejection is not an [Error], and the progress interval that was
    started is not cleared. *)
Theorem upload_failure
    (u : User) (file : ResumeUpload.File) (rest : list ResumeUpload.File)
    (w : ResumeUpload.World) (message : option string) :
  Js.includes ResumeUpload.validTypes (ResumeUpload.file_type file) = true ->
  ResumeUpload.file_size file <= 5 * 1024 * 1024 ->
  ResumeUpload.uploadResume w file = ResumeUpload.Rejects message ->
  ResumeUpload.drop (Some u) (file :: rest) w
  = ResumeUpload.mkWorld 0 None false
      (S (ResumeUpload.nextIntervalId w)) (ResumeUpload.uploadResume w)
      (ResumeUpload.log w
       ++ [ResumeUpload.ESetInterval (ResumeUpload.nextIntervalId w) 300;
           ResumeUpload.EUploadResume file;
           ResumeUpload.EConsoleError "Upload failed:";
           ResumeUpload.EToast "Processing failed"
             (match message with
              | Some m => m
              | None => "Please try again"
              end)
             ResumeUpload.VariantDestructive]).
Proof.
  intros Htype Hsize Hrej.
  rewrite (drop_valid u file rest w Htype Hsize), Hrej. reflexivity.
Qed.

Lemma upload_failure_witness :
  ResumeUpload.log
    (ResumeUpload.drop (Some Sample.alice) [Sample.pdf Sample.MiB]
       (ResumeUpload.idle (fun _ => ResumeUpload.Rejects None)))
  = [ResumeUpload.ESetInterval 0 300;
     ResumeUpload.EUploadResume (Sample.pdf Sample.MiB);
     ResumeUpload.EConsoleError "Upload failed:";
     ResumeUpload.EToast "Processing failed" "Please try again"
       ResumeUpload.VariantDestructive].
Proof.
  exact (f_equal ResumeUpload.log
           (upload_failure Sample.alice (Sample.pdf Sample.MiB) []
              (ResumeUpload.idle (fun _ => ResumeUpload.Rejects None)) None
              eq_refl ltac:(cbn; lia) eq_refl)).
Defined.

(** X27. Every drop of a file by a signed-in user ends with exactly one
    notification, whatever the file and whatever [uploadResume] answers;
    a drop with nobody signed in, or with no file, shows none. *)
Theorem one_notification_per_drop
    (u : User) (file : ResumeUpload.File) (rest files : list ResumeUpload.File)
    (w : ResumeUpload.World) :
  (exists t,
     ResumeUpload.toasts
       (ResumeUpload.log (ResumeUpload.drop (Some u) (file :: rest) w))
     = (ResumeUpload.toasts (ResumeUpload.log w) ++ [t])%list
     /\ ResumeUpload.isToast t = true)
  /\ ResumeUpload.drop None files w = w
  /\ ResumeUpload.drop (Some u) [] w = w.
Proof.
  split; [|split; [apply drop_signed_out | reflexivity]].
  destruct (Js.includes ResumeUpload.validTypes (ResumeUpload.file_type file))
    eqn:Etype.
  - destruct (Z_le_gt_dec (ResumeUpload.file_size file)
                ResumeUpload.maxFileSize) as [Hle | Hgt].
    + rewrite (drop_valid u file rest w Etype Hle).
      destruct (ResumeUpload.uploadResume w file) as [|message];
        cbn [ResumeUpload.log]; rewrite toasts_app; cbn;
        eexists; split; reflexivity.
    + rewrite (drop_too_large u file rest w Etype Hgt).
      cbn [ResumeUpload.log]. rewrite toasts_app. cbn.
      eexists; split; reflexivity.
  - rewrite (drop_invalid_type u file rest w Etype).
    cbn [ResumeUpload.log]. rewrite toasts_app. cbn.
    eexists; split; reflexivity.
Qed.

(** ** What the upload card renders *)

Lemma afterTicks_stopped (n : nat) (p : Z) :
  ResumeView.afterTicks n (p, false) = (p, false).
Proof. induction n as [|n IH]; [reflexivity | exact IH]. Qed.

Lemma afterTicks_add (n m : nat) :
  forall st,
    ResumeView.afterTicks (n + m) st
    = ResumeView.afterTicks m (ResumeView.afterTicks n st).
Proof. induction n as [|n IH]; intros st; [reflexivity | apply IH]. Qed.

(** X28. The simulated progress. After [n] ticks of the interval started at
    0 the card shows 15 n percent, capped at 90: it never reaches 100 by
    itself. The interval clears itself on its seventh tick, and the label
    reads "Completing..." from the sixth tick on. *)
Theorem simulated_progress (n : nat) :
  ResumeView.afterTicks n (0, true)
  = (Z.min (15 * Z.of_nat n) 90, (n <=? 6)%nat)
  /\ String.eqb
       (ResumeView.progressLabel (fst (ResumeView.afterTicks n (0, true))))
       "Completing..."
     = (6 <=? n)%nat.
Proof.
  destruct (Nat.le_gt_cases n 7) as [Hle | Hgt].
  - do 8 (destruct n as [|n]; [split; reflexivity|]). lia.
  - replace n with (7 + (n - 7))%nat by lia.
    rewrite afterTicks_add.
    change (ResumeView.afterTicks 7 (0, true)) with (90, false).
    rewrite afterTicks_stopped. cbn [fst]. split.
    + replace (Z.min (15 * Z.of_nat (7 + (n - 7))) 90) with 90 by lia.
      replace (7 + (n - 7) <=? 6)%nat with false
        by (symmetry; apply Nat.leb_gt; lia).
      reflexivity.
    + symmetry. apply Nat.leb_le. lia.
Qed.

(** X29. The card shows exactly one of its three panels (upload area, document
    preview, current resume), whatever the profile and the current file
    are. *)
Theorem exactly_one_panel
    (R : Type) (currentResume : option R)
    (currentFile : option ResumeUpload.File) :
  ((if ResumeView.uploadAreaShown currentResume currentFile then 1 else 0)
   + (if ResumeView.previewShown currentResume currentFile then 1 else 0)
   + (if ResumeView.currentResumeShown currentResume then 1 else 0))%nat
  = 1%nat.
Proof. destruct currentResume, currentFile; reflexivity. Qed.

(** X30. As long as the profile holds no resume: after an accepted file whose
    upload resolved the card shows the document preview, after one whose
    upload was rejected it is back at the upload area, and removing the
    preview brings back the upload area with the progress at 0 and
    nothing processing. *)
Theorem panel_after_drop
    (R : Type) (u : User) (file : ResumeUpload.File)
    (rest : list ResumeUpload.File) (w : ResumeUpload.World) :
  Js.includes ResumeUpload.validTypes (ResumeUpload.file_type file) = true ->
  ResumeUpload.file_size file <= 5 * 1024 * 1024 ->
  let w' := ResumeUpload.drop (Some u) (file :: rest) w in
  let removed := Eff.exec ResumeView.onRemove w' in
  (if ResumeView.isSome (ResumeUpload.currentFile w')
   then ResumeUpload.uploadResume w file = ResumeUpload.Resolves
        /\ ResumeView.previewShown (@None R) (ResumeUpload.currentFile w')
           = true
   else (exists message,
           ResumeUpload.uploadResume w file = ResumeUpload.Rejects message)
        /\ ResumeView.uploadAreaShown (@None R) (ResumeUpload.currentFile w')
           = true)
  /\ ResumeView.uploadAreaShown (@None R) (ResumeUpload.currentFile removed)
     = true
  /\ ResumeUpload.uploadProgress removed = 0
  /\ ResumeUpload.isProcessing removed = false
  /\ ResumeUpload.log removed = ResumeUpload.log w'.
Proof.
  intros Htype Hsize w' removed. subst removed w'.
  rewrite (drop_valid u file rest w Htype Hsize).
  destruct (ResumeUpload.uploadResume w file) as [|message]; cbn;
    repeat split; eauto.
Qed.

Lemma panel_after_drop_witness :
  ResumeView.uploadAreaShown (@None unit)
    (ResumeUpload.currentFile
       (Eff.exec ResumeView.onRemove
          (ResumeUpload.drop (Some Sample.alice) [Sample.pdf Sample.MiB]
             (ResumeUpload.idle Sample.accepting))))
  = true.
Proof.
  exact (proj1 (proj2
    (panel_after_drop unit Sample.alice (Sample.pdf Sample.MiB) []
       (ResumeUpload.idle Sample.accepting) eq_refl ltac:(cbn; lia)))).
Defined.
